(** * Video task automation endpoint: the readiness poller and the two
      [process_video] handlers (src/app.py, src/main.py)

    The handlers are glue around remote collaborators (the generation
    client, the automation agent, the upload stream).  The collaborators are
    gathered in a record [Env] of canned responses; the handlers themselves
    are written in a small state-and-exception monad over a [World] made of
    the local filesystem, the number of status lookups issued so far and a
    chronological trace of the externally visible steps.  Diagnostic
    [print] calls are not part of the model. *)

From Stdlib Require Import List Lia.
From stdpp Require Import base strings gmap pretty.
Import ListNotations.

Local Open Scope string_scope.

(** ** Python values seen by the code *)

(** The attributes the poller inspects hold [None], a string (the state
    names; a string-valued error) or some other object (an error record). *)
Inductive PyVal : Type :=
| PyNone
| PyStr (s : string)
| PyObj.

(** Python truthiness: [None] and the empty string are falsy. *)
Definition truthy (v : PyVal) : bool :=
  match v with
  | PyNone => false
  | PyStr s => negb (String.eqb s "")
  | PyObj => true
  end.

(** [v == "LITERAL"] for a string literal. *)
Definition py_eq (v : PyVal) (lit : string) : bool :=
  match v with
  | PyStr s => String.eqb s lit
  | _ => false
  end.

(** ** Exceptions *)

Inductive exn : Type :=
| PyException (msg : string)
| FileNotFoundError (path : string)
| HTTPException (status_code : nat) (detail : string).

(** [str(e)].  [HTTPException.__str__] renders as "<status>: <detail>";
    [FileNotFoundError] renders the errno text followed by the path. *)
Definition str (e : exn) : string :=
  match e with
  | PyException msg => msg
  | FileNotFoundError path =>
      "[Errno 2] No such file or directory: '" +:+ path +:+ "'"
  | HTTPException status_code detail => pretty status_code +:+ ": " +:+ detail
  end.

(** ** Remote objects *)

(** The handle returned by [client.files.upload]; [name = None] stands for
    an object without a [name] attribute. *)
Record FileHandle : Type := mkFileHandle { name : option string }.

(** What [client.files.get] returns.  The code reads [state] directly and
    guards [error] with [hasattr]: [error = None] stands for an object
    without that attribute. *)
Record FileStatus : Type := mkFileStatus {
  state : PyVal;
  error : option PyVal
}.

(** [hasattr(st, 'error') and st.error] *)
Definition has_error (st : FileStatus) : bool :=
  match error st with
  | Some v => truthy v
  | None => false
  end.

(** ** Collaborators *)

(** Canned behaviour of everything outside the repository.  The [n]-th
    call of [client.files.get] (counting from 0 over the whole request)
    answers [files_get name n]. *)
Record Env : Type := mkEnv {
  temp_name : string;
  video_read : exn + string;
  files_upload : exn + FileHandle;
  files_get : string -> nat -> exn + FileStatus;
  generate_content : exn + string;
  agent_run : exn + string
}.

(** ** World and trace *)

Inductive Event : Type :=
| EvIngest
| EvUpload
| EvFilesGet (file_name : string)
| EvSleep (secs : nat)
| EvGenerate
| EvUnlink (path : string)
| EvAgentRun.

Record World : Type := mkWorld {
  fs : gmap string string;
  gets : nat;
  trace : list Event
}.

Definition init_world (files : gmap string string) : World :=
  mkWorld files 0 [].

(** ** The monad *)

Definition M (A : Type) : Type := World -> (exn + A) * World.

Definition ret {A} (a : A) : M A := fun w => (inr a, w).

Definition raise {A} (e : exn) : M A := fun w => (inl e, w).

Definition bind {A B} (m : M A) (k : A -> M B) : M B :=
  fun w =>
    match m w with
    | (inl e, w') => (inl e, w')
    | (inr a, w') => k a w'
    end.

Notation "x <- m ;; k" := (bind m (fun x => k))
  (at level 100, m at next level, right associativity).
Notation "m ;;; k" := (bind m (fun _ => k))
  (at level 100, right associativity).

(** [try: body except Exception as e: handler e].  Effects of [body] up to
    the raise are kept. *)
Definition try_except {A} (body : M A) (handler : exn -> M A) : M A :=
  fun w =>
    match body w with
    | (inl e, w') => handler e w'
    | (inr a, w') => (inr a, w')
    end.

(** A call whose outcome is canned. *)
Definition call {A} (r : exn + A) : M A := fun w => (r, w).

Definition emit (e : Event) : M unit :=
  fun w => (inr tt, mkWorld (fs w) (gets w) (trace w ++ [e])).

(** A [for] loop whose body may [return]: [Some r] leaves the function
    with [r], [None] goes on with the next element. *)
Fixpoint for_each {A R} (xs : list A) (body : A -> M (option R))
  : M (option R) :=
  match xs with
  | [] => ret None
  | x :: xs' =>
      r <- body x ;;
      match r with
      | Some v => ret (Some v)
      | None => for_each xs' body
      end
  end.

(** [range(n)] *)
Definition range (n : nat) : list nat := seq 0 n.

(** ** Primitive operations *)

Definition time_sleep (secs : nat) : M unit := emit (EvSleep secs).

Definition client_files_get (env : Env) (file_name : string) : M FileStatus :=
  fun w =>
    (files_get env file_name (gets w),
     mkWorld (fs w) (S (gets w)) (trace w ++ [EvFilesGet file_name])).

Definition os_path_exists (path : string) : M bool :=
  fun w => (inr (bool_decide (is_Some (fs w !! path))), w).

Definition os_unlink (path : string) : M unit :=
  fun w =>
    match fs w !! path with
    | Some _ =>
        (inr tt, mkWorld (delete path (fs w)) (gets w)
                         (trace w ++ [EvUnlink path]))
    | None => (inl (FileNotFoundError path), w)
    end.

(** [os.path.getsize(path)] on a file holding a string of bytes. *)
Definition os_path_getsize (path : string) : M nat :=
  fun w =>
    match fs w !! path with
    | Some content => (inr (String.length content), w)
    | None => (inl (FileNotFoundError path), w)
    end.

(** Entering [with tempfile.NamedTemporaryFile(delete=False, suffix='.mp4')]:
    an empty file appears under the name the library picked.  Leaving the
    block closes the file and, with [delete=False], keeps it. *)
Definition named_temporary_file (env : Env) : M string :=
  fun w =>
    (inr (temp_name env),
     mkWorld (<[temp_name env := ""]> (fs w)) (gets w)
             (trace w ++ [EvIngest])).

(** [temp_file.write(content)] *)
Definition file_write (path content : string) : M unit :=
  fun w => (inr tt, mkWorld (<[path := content]> (fs w)) (gets w) (trace w)).

(** [client.files.upload(file=path)] *)
Definition client_files_upload (env : Env) (path : string) : M FileHandle :=
  emit EvUpload ;;; call (files_upload env).

(** The generation request, [response.text] included. *)
Definition models_generate_content (env : Env) : M string :=
  emit EvGenerate ;;; call (generate_content env).

(** Running the automation agent on an instruction text. *)
Definition agent_execute (env : Env) (task : string) : M string :=
  emit EvAgentRun ;;; call (agent_run env).

(** ** Responses *)

Inductive Body : Type :=
| Description (description browser_result : string)
| TaskResponse (prompt status : string).

Inductive Response : Type :=
| Success (body : Body)
| Failure (status_code : nat) (detail : string).

(** What the framework sends for the handler's outcome: the body with
    status 200, or the status and detail of the [HTTPException]; any other
    exception escaping the handler is an internal server error. *)
Definition respond (r : exn + Body) : Response :=
  match r with
  | inr body => Success body
  | inl (HTTPException status_code detail) => Failure status_code detail
  | inl _ => Failure 500 "Internal Server Error"
  end.

(** ** src/app.py *)

Module app.

Definition max_retries : nat := 120.
Definition retry_delay : nat := 5.

(** Body of the [for attempt in range(max_retries)] loop. *)
Definition poll_attempt (env : Env) (file_name : string) (attempt : nat)
  : M (option bool) :=
  try_except
    (current_status <- client_files_get env file_name ;;
     let file_state := state current_status in
     if has_error current_status then ret (Some false)
     else if py_eq file_state "ACTIVE" then ret (Some true)
     else if py_eq file_state "FAILED" then ret (Some false)
     else time_sleep retry_delay ;;; ret None)
    (fun e => time_sleep retry_delay ;;; ret None).

Definition wait_for_file_processing (env : Env) (file : FileHandle) : M bool :=
  match name file with
  | None => ret false
  | Some file_name =>
      r <- try_except
             (file_status <- client_files_get env file_name ;;
              if has_error file_status then ret (Some false) else ret None)
             (fun e => ret (Some false)) ;;
      match r with
      | Some b => ret b
      | None =>
          r <- for_each (range max_retries) (poll_attempt env file_name) ;;
          match r with
          | Some b => ret b
          | None => ret false
          end
      end
  end.

Definition run_browser_agent (env : Env) (description : string) : M string :=
  agent_execute env description.

Definition process_video (env : Env) : M Body :=
  try_except
    (temp_file_path <- named_temporary_file env ;;
     content <- call (video_read env) ;;
     file_write temp_file_path content ;;;
     try_except
       (present <- os_path_exists temp_file_path ;;
        (if negb present
         then raise (PyException "Temporary file not found")
         else ret tt) ;;;
        file_size <- os_path_getsize temp_file_path ;;
        file <- client_files_upload env temp_file_path ;;
        ready <- wait_for_file_processing env file ;;
        (if negb ready
         then raise (HTTPException 400
                       "File processing timeout. Please try again.")
         else ret tt) ;;;
        try_except
          (response <- models_generate_content env ;;
           os_unlink temp_file_path ;;;
           browser_result <- run_browser_agent env response ;;
           ret (Description response browser_result))
          (fun gen_error =>
             raise (HTTPException 400
                      ("Error generating content: " +:+ str gen_error))))
       (fun e =>
          os_unlink temp_file_path ;;;
          raise (HTTPException 400 (str e))))
    (fun e => raise (HTTPException 500 (str e))).

(** One request against a filesystem [files]: the response and the world
    the request leaves behind. *)
Definition serve (env : Env) (files : gmap string string) : Response * World :=
  let (r, w) := process_video env (init_world files) in (respond r, w).

End app.

(** ** src/main.py *)

Module main.

Definition process_video (env : Env) : M Body :=
  try_except
    (temp_video_path <- named_temporary_file env ;;
     content <- call (video_read env) ;;
     file_write temp_video_path content ;;;
     task_prompt <- models_generate_content env ;;
     os_unlink temp_video_path ;;;
     _ <- agent_execute env task_prompt ;;
     ret (TaskResponse task_prompt "success"))
    (fun e => raise (HTTPException 500 (str e))).

Definition serve (env : Env) (files : gmap string string) : Response * World :=
  let (r, w) := process_video env (init_world files) in (respond r, w).

End main.

(** ** Reading a status-observation sequence *)

(** The lookup returned a status whose state equals the literal. *)
Definition observes (r : exn + FileStatus) (lit : string) : bool :=
  match r with
  | inr st => py_eq (state st) lit
  | inl _ => false
  end.

(** The lookup returned a status with a truthy error attribute. *)
Definition carries_error (r : exn + FileStatus) : bool :=
  match r with
  | inr st => has_error st
  | inl _ => false
  end.

(** The lookup itself raised. *)
Definition raises (r : exn + FileStatus) : bool :=
  match r with
  | inl _ => true
  | inr _ => false
  end.

(** A status without error whose state is neither ACTIVE nor FAILED:
    PROCESSING or any unexpected value. *)
Definition in_progress (r : exn + FileStatus) : bool :=
  negb (raises r) && negb (carries_error r)
  && negb (observes r "ACTIVE") && negb (observes r "FAILED").

(** An attempt after which the loop goes on. *)
Definition keeps_polling (r : exn + FileStatus) : bool :=
  raises r || in_progress r.

(** The world after one status lookup, and after one sleep of the loop. *)
Definition after_get (file_name : string) (w : World) : World :=
  mkWorld (fs w) (S (gets w)) (trace w ++ [EvFilesGet file_name]).

Definition after_sleep (w : World) : World :=
  mkWorld (fs w) (gets w) (trace w ++ [EvSleep app.retry_delay]).

(** The trace of [n] attempts each followed by its sleep. *)
Fixpoint polling (file_name : string) (n : nat) : list Event :=
  match n with
  | 0 => []
  | S n' => EvFilesGet file_name :: EvSleep app.retry_delay :: polling file_name n'
  end.

(** The world after [n] such attempts. *)
Definition after_polling (file_name : string) (n : nat) (w : World) : World :=
  mkWorld (fs w) (gets w + n) (trace w ++ polling file_name n).

(** Number of status lookups and of sleeps in a trace. *)
Definition is_get (e : Event) : bool :=
  match e with EvFilesGet _ => true | _ => false end.

Definition is_sleep (e : Event) : bool :=
  match e with EvSleep _ => true | _ => false end.

Definition lookups (tr : list Event) : nat := length (List.filter is_get tr).
Definition sleeps (tr : list Event) : nat := length (List.filter is_sleep tr).

(** Lookup number [k] of a poller run from [w] to [w'] was issued: [k = 0]
    is the initial lookup, [k >= 1] the [k]-th attempt of the loop. *)
Definition issued (w w' : World) (k : nat) : Prop := gets w + k < gets w'.

(** The remote service reports ACTIVE on attempt [N] and on no earlier
    attempt of a run started with no lookup issued yet. *)
Definition first_active (env : Env) (file_name : string) (N : nat) : Prop :=
  observes (files_get env file_name N) "ACTIVE" = true
  /\ forall k, 1 <= k < N ->
       observes (files_get env file_name k) "ACTIVE" = false.

(** The poller's verdict and trace when it is the first to issue status
    lookups, as it is in a request. *)
Definition ready (env : Env) (file : FileHandle) : bool :=
  match fst (app.wait_for_file_processing env file (init_world ∅)) with
  | inr b => b
  | inl _ => false
  end.

Definition poll_gets (env : Env) (file : FileHandle) : nat :=
  gets (snd (app.wait_for_file_processing env file (init_world ∅))).

Definition poll_trace (env : Env) (file : FileHandle) : list Event :=
  trace (snd (app.wait_for_file_processing env file (init_world ∅))).

(** The path of the temporary file and the filesystem once the upload body
    [content] is stored in it. *)
Definition stored (env : Env) (content : string) (files : gmap string string)
  : gmap string string :=
  <[temp_name env := content]> (<[temp_name env := ""]> files).

(** ** Stages and outcomes of a request *)

Inductive Stage : Type := Ingest | Upload | Poll | Generate | Delegate.

(** The stage a traced step belongs to; deleting the temporary file is
    cleanup, not a stage. *)
Definition stage_of (e : Event) : option Stage :=
  match e with
  | EvIngest => Some Ingest
  | EvUpload => Some Upload
  | EvFilesGet _ => Some Poll
  | EvSleep _ => Some Poll
  | EvGenerate => Some Generate
  | EvAgentRun => Some Delegate
  | EvUnlink _ => None
  end.

(** The stages of a trace, one entry per step. *)
Definition stages (tr : list Event) : list Stage := omap stage_of tr.

Definition is_upload_or_poll (s : Stage) : bool :=
  match s with
  | Upload | Poll => true
  | _ => false
  end.

(** A stage list with its upload and poll steps removed. *)
Definition without_upload_and_poll (l : list Stage) : list Stage :=
  List.filter (fun s => negb (is_upload_or_poll s)) l.

(** Outcomes of the two variants that agree: both succeed with the same
    generated text, or both fail.  The status code of a failure is not
    compared. *)
Definition same_outcome (a m : Response) : Prop :=
  match a, m with
  | Success (Description description _), Success (TaskResponse prompt _) =>
      description = prompt
  | Failure _ _, Failure _ _ => True
  | _, _ => False
  end.

(** Nothing fails in src/app.py before generation that src/main.py does not
    also go through: the upload body cannot be read, or the upload succeeds
    and the poller reports ready. *)
Definition upload_and_poll_pass (env : Env) : bool :=
  match video_read env with
  | inl _ => true
  | inr _ =>
      match files_upload env with
      | inl _ => false
      | inr file => ready env file
      end
  end.

(** The status code of a response. *)
Definition status_code_of (r : Response) : nat :=
  match r with
  | Success _ => 200
  | Failure code _ => code
  end.

(** A 4xx status code. *)
Definition client_error (code : nat) : bool :=
  ((400 <=? code) && (code <? 500))%nat.

(** ** Scripted collaborators *)

Definition asset : string := "files/abc123".
Definition handle : FileHandle := mkFileHandle (Some asset).

(** A status in the given state with [error] set to [None]. *)
Definition status (s : string) : exn + FileStatus :=
  inr (mkFileStatus (PyStr s) (Some PyNone)).

(** A status in the given state with an error payload. *)
Definition status_with_error (s msg : string) : exn + FileStatus :=
  inr (mkFileStatus (PyStr s) (Some (PyStr msg))).

Definition lookup_error : exn + FileStatus :=
  inl (PyException "503 Service Unavailable").

(** Status lookups answer from [script] in order, then [rest] for ever. *)
Definition scripted (script : list (exn + FileStatus)) (rest : exn + FileStatus)
  : string -> nat -> exn + FileStatus :=
  fun _ n => default rest (script !! n).

(** A request with every collaborator's answer given. *)
Definition request (script : list (exn + FileStatus)) (rest : exn + FileStatus)
    (read : exn + string) (upload : exn + FileHandle)
    (generated agent : exn + string) : Env :=
  mkEnv "/tmp/tmpk3v9.mp4" read upload (scripted script rest) generated agent.

(** A request whose upload, generation and automation all go well. *)
Definition mock (script : list (exn + FileStatus)) (rest : exn + FileStatus)
  : Env :=
  mkEnv "/tmp/tmpk3v9.mp4" (inr "0123456789") (inr handle)
        (scripted script rest)
        (inr "Click login button, then enter username 'alice'")
        (inr "done").

(** ** Measuring a run *)

(** Seconds slept along a trace. *)
Fixpoint slept (tr : list Event) : nat :=
  match tr with
  | [] => 0
  | EvSleep secs :: tr' => secs + slept tr'
  | _ :: tr' => slept tr'
  end.

(** A step the poller can take: a status lookup or a sleep. *)
Definition poll_event (e : Event) : bool := is_get e || is_sleep e.

(** Stepping through a handler: unfold the monad and the canned calls,
    leaving the poller and the filesystem primitives folded. *)
Ltac step :=
  unfold try_except, bind, named_temporary_file, call, file_write,
    client_files_upload, models_generate_content, app.run_browser_agent,
    agent_execute, emit, ret, raise;
  cbn beta iota delta [fs gets trace fst snd app negb].

(** ** One attempt of the loop *)

Lemma poll_attempt_stop env nm attempt w :
  keeps_polling (files_get env nm (gets w)) = false ->
  app.poll_attempt env nm attempt w
  = (inr (Some (negb (carries_error (files_get env nm (gets w)))
                && observes (files_get env nm (gets w)) "ACTIVE")),
     after_get nm w).
Proof.
  unfold keeps_polling, in_progress, app.poll_attempt, try_except, bind,
    client_files_get, after_get.
  destruct (files_get env nm (gets w)) as [e|st]; simpl; [discriminate|].
  destruct (has_error st); simpl; [reflexivity|].
  destruct (py_eq (state st) "ACTIVE"); simpl; [reflexivity|].
  destruct (py_eq (state st) "FAILED"); simpl; [reflexivity|discriminate].
Qed.

Lemma poll_attempt_continue env nm attempt w :
  keeps_polling (files_get env nm (gets w)) = true ->
  app.poll_attempt env nm attempt w = (inr None, after_sleep (after_get nm w)).
Proof.
  unfold keeps_polling, in_progress, app.poll_attempt, try_except, bind,
    client_files_get, after_get, after_sleep, time_sleep, emit, ret.
  destruct (files_get env nm (gets w)) as [e|st]; simpl; [reflexivity|].
  destruct (has_error st); simpl; [discriminate|].
  destruct (py_eq (state st) "ACTIVE"); simpl; [discriminate|].
  destruct (py_eq (state st) "FAILED"); simpl; [discriminate|reflexivity].
Qed.

Lemma after_polling_S nm n w :
  after_polling nm n (after_sleep (after_get nm w)) = after_polling nm (S n) w.
Proof.
  unfold after_polling, after_sleep, after_get; simpl.
  f_equal; [lia|].
  rewrite <- !app_assoc. reflexivity.
Qed.

(** ** The bounded loop *)

(** Attempts that all keep polling use up the whole list. *)
Lemma loop_exhausted env nm (xs : list nat) : forall w,
  (forall k, k < length xs ->
     keeps_polling (files_get env nm (gets w + k)) = true) ->
  for_each xs (app.poll_attempt env nm) w
  = (inr None, after_polling nm (length xs) w).
Proof.
  induction xs as [|x xs IH]; intros w Hall.
  - unfold after_polling; simpl. rewrite Nat.add_0_r, app_nil_r.
    destruct w; reflexivity.
  - simpl. unfold bind at 1.
    rewrite poll_attempt_continue
      by (specialize (Hall 0); rewrite Nat.add_0_r in Hall; apply Hall; simpl; lia).
    rewrite IH.
    + rewrite after_polling_S. reflexivity.
    + intros k Hk. simpl.
      replace (S (gets w + k)) with (gets w + S k) by lia.
      apply Hall. simpl; lia.
Qed.

(** The first attempt that does not keep polling ends the loop. *)
Lemma loop_stops env nm (xs : list nat) : forall j w,
  j < length xs ->
  (forall k, k < j -> keeps_polling (files_get env nm (gets w + k)) = true) ->
  keeps_polling (files_get env nm (gets w + j)) = false ->
  for_each xs (app.poll_attempt env nm) w
  = (inr (Some (negb (carries_error (files_get env nm (gets w + j)))
                && observes (files_get env nm (gets w + j)) "ACTIVE")),
     after_get nm (after_polling nm j w)).
Proof.
  induction xs as [|x xs IH]; intros j w Hj Hbefore Hstop; [simpl in Hj; lia|].
  simpl. unfold bind at 1.
  destruct j as [|j].
  - rewrite Nat.add_0_r in *.
    rewrite poll_attempt_stop by assumption.
    unfold ret, after_polling; simpl.
    rewrite Nat.add_0_r, app_nil_r. destruct w; reflexivity.
  - rewrite poll_attempt_continue
      by (specialize (Hbefore 0); rewrite Nat.add_0_r in Hbefore;
          apply Hbefore; lia).
    rewrite (IH j).
    + simpl. replace (S (gets w + j)) with (gets w + S j) by lia.
      rewrite after_polling_S. reflexivity.
    + simpl in Hj; lia.
    + intros k Hk. simpl.
      replace (S (gets w + k)) with (gets w + S k) by lia.
      apply Hbefore; lia.
    + simpl. replace (S (gets w + j)) with (gets w + S j) by lia. exact Hstop.
Qed.

(** ** The whole poller *)

Lemma first_stop (P : nat -> bool) (n : nat) :
  (forall k, k < n -> P k = true)
  \/ exists j, j < n /\ (forall k, k < j -> P k = true) /\ P j = false.
Proof.
  induction n as [|n IH].
  - left; intros k Hk; lia.
  - destruct IH as [Hall|(j & Hj & Hb & Hs)].
    + destruct (P n) eqn:Hn.
      * left; intros k Hk.
        destruct (Nat.eq_dec k n) as [->|]; [assumption|apply Hall; lia].
      * right; exists n; repeat split; [lia|assumption..].
    + right; exists j; repeat split; [lia|assumption..].
Qed.

Lemma wait_no_name env file w :
  name file = None ->
  app.wait_for_file_processing env file w = (inr false, w).
Proof.
  intros Hn. unfold app.wait_for_file_processing. rewrite Hn. reflexivity.
Qed.

Lemma wait_initial_failure env file nm w :
  name file = Some nm ->
  raises (files_get env nm (gets w))
  || carries_error (files_get env nm (gets w)) = true ->
  app.wait_for_file_processing env file w = (inr false, after_get nm w).
Proof.
  intros Hn H0. unfold app.wait_for_file_processing. rewrite Hn.
  unfold bind, try_except, client_files_get, after_get, ret.
  destruct (files_get env nm (gets w)) as [e|st]; simpl in *; [reflexivity|].
  rewrite H0. reflexivity.
Qed.

Lemma wait_enters_loop env file nm w :
  name file = Some nm ->
  raises (files_get env nm (gets w))
  || carries_error (files_get env nm (gets w)) = false ->
  app.wait_for_file_processing env file w
  = match for_each (range app.max_retries) (app.poll_attempt env nm)
            (after_get nm w) with
    | (inr (Some b), w') => (inr b, w')
    | (inr None, w') => (inr false, w')
    | (inl e, w') => (inl e, w')
    end.
Proof.
  intros Hn H0. unfold app.wait_for_file_processing. rewrite Hn.
  set (loop := for_each (range app.max_retries) (app.poll_attempt env nm)).
  unfold bind, try_except, client_files_get, ret.
  fold (after_get nm w).
  destruct (files_get env nm (gets w)) as [e|st]; simpl in H0;
    [discriminate|].
  rewrite H0.
  destruct (loop (after_get nm w)) as [[e|[b|]] w']; reflexivity.
Qed.

(** With a good initial lookup and attempts that all keep polling, the
    poller gives up when the budget is used. *)
Lemma wait_exhausted env file nm w :
  name file = Some nm ->
  raises (files_get env nm (gets w))
  || carries_error (files_get env nm (gets w)) = false ->
  (forall k, 1 <= k <= app.max_retries ->
     keeps_polling (files_get env nm (gets w + k)) = true) ->
  app.wait_for_file_processing env file w
  = (inr false, after_polling nm app.max_retries (after_get nm w)).
Proof.
  intros Hn H0 Hall.
  rewrite (wait_enters_loop env file nm w Hn H0).
  rewrite loop_exhausted.
  - unfold range. rewrite length_seq. reflexivity.
  - unfold range. rewrite length_seq. intros k Hk. simpl.
    replace (S (gets w + k)) with (gets w + S k) by lia.
    apply Hall. lia.
Qed.

(** With a good initial lookup, the poller ends at the first attempt [N]
    that does not keep polling, with that attempt's outcome. *)
Lemma wait_stops env file nm w N :
  name file = Some nm ->
  raises (files_get env nm (gets w))
  || carries_error (files_get env nm (gets w)) = false ->
  1 <= N <= app.max_retries ->
  (forall k, 1 <= k < N ->
     keeps_polling (files_get env nm (gets w + k)) = true) ->
  keeps_polling (files_get env nm (gets w + N)) = false ->
  app.wait_for_file_processing env file w
  = (inr (negb (carries_error (files_get env nm (gets w + N)))
          && observes (files_get env nm (gets w + N)) "ACTIVE"),
     after_get nm (after_polling nm (N - 1) (after_get nm w))).
Proof.
  intros Hn H0 HN Hb Hs.
  rewrite (wait_enters_loop env file nm w Hn H0).
  destruct N as [|j]; [lia|].
  rewrite (loop_stops env nm _ j).
  - simpl. replace (S (gets w + j)) with (gets w + S j) by lia.
    rewrite Nat.sub_0_r. reflexivity.
  - unfold range. rewrite length_seq. lia.
  - intros k Hk. simpl.
    replace (S (gets w + k)) with (gets w + S k) by lia. apply Hb; lia.
  - simpl. replace (S (gets w + j)) with (gets w + S j) by lia. exact Hs.
Qed.

(** The poller always ends in one of three ways: at the initial lookup,
    at the end of the budget, or at the first attempt that does not keep
    polling. *)
Lemma wait_cases env file nm w :
  name file = Some nm ->
  (raises (files_get env nm (gets w))
   || carries_error (files_get env nm (gets w)) = true
   /\ app.wait_for_file_processing env file w = (inr false, after_get nm w))
  \/ (raises (files_get env nm (gets w))
      || carries_error (files_get env nm (gets w)) = false
      /\ (forall k, 1 <= k <= app.max_retries ->
            keeps_polling (files_get env nm (gets w + k)) = true)
      /\ app.wait_for_file_processing env file w
         = (inr false, after_polling nm app.max_retries (after_get nm w)))
  \/ (raises (files_get env nm (gets w))
      || carries_error (files_get env nm (gets w)) = false
      /\ exists N, 1 <= N <= app.max_retries
         /\ (forall k, 1 <= k < N ->
               keeps_polling (files_get env nm (gets w + k)) = true)
         /\ keeps_polling (files_get env nm (gets w + N)) = false
         /\ app.wait_for_file_processing env file w
            = (inr (negb (carries_error (files_get env nm (gets w + N)))
                    && observes (files_get env nm (gets w + N)) "ACTIVE"),
               after_get nm (after_polling nm (N - 1) (after_get nm w)))).
Proof.
  intros Hn.
  destruct (raises (files_get env nm (gets w))
            || carries_error (files_get env nm (gets w))) eqn:H0.
  { left; split; [reflexivity|]. now apply wait_initial_failure. }
  right.
  destruct (first_stop
              (fun k => keeps_polling (files_get env nm (gets w + S k)))
              app.max_retries) as [Hall|(j & Hj & Hb & Hs)].
  - left; split; [reflexivity|].
    assert (Hall' : forall k, 1 <= k <= app.max_retries ->
              keeps_polling (files_get env nm (gets w + k)) = true).
    { intros k Hk. destruct k as [|k]; [lia|]. apply Hall; lia. }
    split; [exact Hall'|]. now apply wait_exhausted.
  - right; split; [reflexivity|]. exists (S j).
    assert (Hb' : forall k, 1 <= k < S j ->
              keeps_polling (files_get env nm (gets w + k)) = true).
    { intros k Hk. destruct k as [|k]; [lia|]. apply Hb; lia. }
    split; [lia|]. split; [exact Hb'|]. split; [exact Hs|].
    apply wait_stops; [assumption..|lia|assumption|assumption].
Qed.

(** Counting lookups and sleeps along the poller's trace. *)
Lemma lookups_app tr1 tr2 : lookups (tr1 ++ tr2) = lookups tr1 + lookups tr2.
Proof. unfold lookups. rewrite List.filter_app, length_app. reflexivity. Qed.

Lemma sleeps_app tr1 tr2 : sleeps (tr1 ++ tr2) = sleeps tr1 + sleeps tr2.
Proof. unfold sleeps. rewrite List.filter_app, length_app. reflexivity. Qed.

Lemma lookups_polling nm n : lookups (polling nm n) = n.
Proof.
  induction n as [|n IH]; [reflexivity|].
  unfold lookups in *; simpl. now rewrite IH.
Qed.

Lemma sleeps_polling nm n : sleeps (polling nm n) = n.
Proof.
  induction n as [|n IH]; [reflexivity|].
  unfold sleeps in *; simpl. now rewrite IH.
Qed.

Lemma trace_stopped nm n w :
  lookups (trace (after_get nm (after_polling nm n (after_get nm w))))
  = lookups (trace w) + n + 2
  /\ sleeps (trace (after_get nm (after_polling nm n (after_get nm w))))
     = sleeps (trace w) + n.
Proof.
  simpl. rewrite !lookups_app, !sleeps_app, lookups_polling, sleeps_polling.
  unfold lookups, sleeps; simpl. lia.
Qed.

Lemma trace_exhausted nm n w :
  lookups (trace (after_polling nm n (after_get nm w)))
  = lookups (trace w) + n + 1
  /\ sleeps (trace (after_polling nm n (after_get nm w)))
     = sleeps (trace w) + n.
Proof.
  simpl. rewrite !lookups_app, !sleeps_app, lookups_polling, sleeps_polling.
  unfold lookups, sleeps; simpl. lia.
Qed.

Lemma observes_failed_stops r :
  observes r "FAILED" = true ->
  keeps_polling r = false
  /\ negb (carries_error r) && observes r "ACTIVE" = false.
Proof.
  unfold keeps_polling, in_progress, observes, carries_error, raises.
  destruct r as [e|st]; [discriminate|].
  destruct (state st) as [|s|]; simpl; try discriminate.
  intros Hs. apply String.eqb_eq in Hs; subst s. simpl.
  rewrite !andb_false_r. split; reflexivity.
Qed.

Lemma carries_error_stops r :
  carries_error r = true ->
  keeps_polling r = false
  /\ negb (carries_error r) && observes r "ACTIVE" = false.
Proof.
  unfold keeps_polling, in_progress.
  intros H. destruct r as [e|st]; [discriminate|]. simpl in *.
  rewrite H. split; reflexivity.
Qed.

(** An issued attempt that does not keep polling is the last lookup of the
    run, and the run's outcome is that attempt's. *)
Lemma issued_stop_is_last env file nm w r w' j :
  name file = Some nm ->
  app.wait_for_file_processing env file w = (r, w') ->
  1 <= j -> issued w w' j ->
  keeps_polling (files_get env nm (gets w + j)) = false ->
  r = inr (negb (carries_error (files_get env nm (gets w + j)))
           && observes (files_get env nm (gets w + j)) "ACTIVE")
  /\ w' = after_get nm (after_polling nm (j - 1) (after_get nm w))
  /\ j <= app.max_retries.
Proof.
  intros Hn Hrun Hj Hiss Hstop. unfold issued in Hiss.
  destruct (wait_cases env file nm w Hn)
    as [[_ Hw]|[(_ & Hall & Hw)|(_ & N & HN & Hb & Hs & Hw)]];
    rewrite Hw in Hrun; injection Hrun as <- <-; simpl in Hiss.
  - lia.
  - rewrite Hall in Hstop by lia. discriminate.
  - assert (j = N) as ->.
    { destruct (Nat.lt_trichotomy j N) as [Hlt|[->|Hgt]]; [|reflexivity|lia].
      rewrite Hb in Hstop by lia. discriminate. }
    repeat split; lia.
Qed.

(** * The readiness poller: claims *)

(** C1.  Whenever an attempt of the loop that the poller really issued
    observes the state FAILED, the poller returns [False] at that very
    attempt: that lookup is the last one of the run, no sleep follows it
    and none of the remaining attempts is used. *)
Theorem failed_ends_polling env file nm w r w' j :
  name file = Some nm ->
  app.wait_for_file_processing env file w = (r, w') ->
  1 <= j -> issued w w' j ->
  observes (files_get env nm (gets w + j)) "FAILED" = true ->
  r = inr false
  /\ w' = after_get nm (after_polling nm (j - 1) (after_get nm w))
  /\ ~ issued w w' (j + 1)
  /\ lookups (trace w') = lookups (trace w) + 1 + j
  /\ sleeps (trace w') = sleeps (trace w) + (j - 1).
Proof.
  intros Hn Hrun Hj Hiss Hobs.
  destruct (observes_failed_stops _ Hobs) as [Hstop Hres].
  destruct (issued_stop_is_last env file nm w r w' j Hn Hrun Hj Hiss Hstop)
    as (Hr & Hw & Hmax).
  rewrite Hres in Hr.
  split; [exact Hr|]. split; [exact Hw|].
  destruct (trace_stopped nm (j - 1) w) as [Hl Hs].
  subst w'. rewrite Hl, Hs. unfold issued; simpl.
  repeat split; lia.
Qed.

Lemma failed_ends_polling_witness :
  let env := mock [status "PROCESSING"; status "PROCESSING"; status "FAILED"]
                  (status "ACTIVE") in
  let run := app.wait_for_file_processing env handle (init_world ∅) in
  issued (init_world ∅) (snd run) 2
  /\ fst run = inr false
  /\ lookups (trace (snd run)) = 3
  /\ sleeps (trace (snd run)) = 1.
Proof.
  intros env run.
  assert (Hiss : issued (init_world ∅) (snd run) 2)
    by (unfold issued; vm_compute; lia).
  destruct (failed_ends_polling env handle asset (init_world ∅)
              (fst run) (snd run) 2 eq_refl (surjective_pairing run)
              (le_n_S 0 1 (le_0_n 1)) Hiss eq_refl)
    as (Hr & Hw & _ & Hl & Hs).
  exact (conj Hiss (conj Hr (conj Hl Hs))).
Defined.

(** C9.  Whenever an attempt of the loop that the poller really issued
    fetches a status with a truthy error attribute, the poller returns
    [False] at that attempt, whatever the state of that status is, ACTIVE
    included: the error check comes before the state check. *)
Theorem error_payload_ends_polling env file nm w r w' j :
  name file = Some nm ->
  app.wait_for_file_processing env file w = (r, w') ->
  1 <= j -> issued w w' j ->
  carries_error (files_get env nm (gets w + j)) = true ->
  r = inr false
  /\ w' = after_get nm (after_polling nm (j - 1) (after_get nm w))
  /\ ~ issued w w' (j + 1).
Proof.
  intros Hn Hrun Hj Hiss Herr.
  destruct (carries_error_stops _ Herr) as [Hstop Hres].
  destruct (issued_stop_is_last env file nm w r w' j Hn Hrun Hj Hiss Hstop)
    as (Hr & Hw & Hmax).
  rewrite Hres in Hr.
  split; [exact Hr|]. split; [exact Hw|].
  subst w'. unfold issued; simpl. lia.
Qed.

Lemma error_payload_ends_polling_witness :
  let env := mock [status "PROCESSING"; status "PROCESSING";
                   status_with_error "ACTIVE" "quota exceeded"]
                  (status "ACTIVE") in
  let run := app.wait_for_file_processing env handle (init_world ∅) in
  observes (files_get env asset 2) "ACTIVE" = true
  /\ carries_error (files_get env asset 2) = true
  /\ fst run = inr false
  /\ gets (snd run) = 3.
Proof.
  intros env run.
  assert (Hiss : issued (init_world ∅) (snd run) 2)
    by (unfold issued; vm_compute; lia).
  destruct (error_payload_ends_polling env handle asset (init_world ∅)
              (fst run) (snd run) 2 eq_refl (surjective_pairing run)
              (le_n_S 0 1 (le_0_n 1)) Hiss eq_refl)
    as (Hr & Hw & _).
  refine (conj eq_refl (conj eq_refl (conj Hr _))).
  rewrite Hw. reflexivity.
Defined.

(** C5.  A handle without a [name] attribute makes the poller return
    [False] without touching the world; an initial lookup that raises, or
    that returns a status with a truthy error attribute, makes it return
    [False] right after that one lookup.  In each case the loop is not
    entered: no attempt is made and nothing is slept. *)
Theorem initial_failure_uses_no_budget env file w :
  (name file = None ->
   app.wait_for_file_processing env file w = (inr false, w))
  /\ (forall nm,
        name file = Some nm ->
        raises (files_get env nm (gets w)) = true
        \/ carries_error (files_get env nm (gets w)) = true ->
        app.wait_for_file_processing env file w = (inr false, after_get nm w)
        /\ ~ issued w (after_get nm w) 1
        /\ sleeps (trace (after_get nm w)) = sleeps (trace w)).
Proof.
  split.
  - apply wait_no_name.
  - intros nm Hn H0. split; [|split].
    + apply wait_initial_failure; [assumption|].
      destruct H0 as [-> | ->]; [reflexivity|apply orb_true_r].
    + unfold issued; simpl. lia.
    + simpl. rewrite sleeps_app. unfold sleeps; simpl. lia.
Qed.

Lemma initial_failure_uses_no_budget_witness :
  app.wait_for_file_processing (mock [] (status "ACTIVE"))
    (mkFileHandle None) (init_world ∅) = (inr false, init_world ∅)
  /\ app.wait_for_file_processing (mock [lookup_error] (status "ACTIVE"))
       handle (init_world ∅) = (inr false, after_get asset (init_world ∅))
  /\ app.wait_for_file_processing
       (mock [status_with_error "ACTIVE" "bad container"] (status "ACTIVE"))
       handle (init_world ∅) = (inr false, after_get asset (init_world ∅)).
Proof.
  split; [|split].
  - apply (initial_failure_uses_no_budget (mock [] (status "ACTIVE"))
             (mkFileHandle None) (init_world ∅)).
    reflexivity.
  - apply (initial_failure_uses_no_budget
             (mock [lookup_error] (status "ACTIVE")) handle (init_world ∅)).
    + reflexivity.
    + left; reflexivity.
  - apply (initial_failure_uses_no_budget
             (mock [status_with_error "ACTIVE" "bad container"]
                   (status "ACTIVE")) handle (init_world ∅)).
    + reflexivity.
    + right; reflexivity.
Defined.

Lemma in_progress_keeps_polling r : in_progress r = true -> keeps_polling r = true.
Proof. unfold keeps_polling. intros ->. apply orb_true_r. Qed.

Lemma in_progress_initial r :
  in_progress r = true -> raises r || carries_error r = false.
Proof.
  unfold in_progress. destruct (raises r), (carries_error r); simpl;
    intros H; try discriminate; reflexivity.
Qed.

Lemma active_without_error_stops r :
  observes r "ACTIVE" = true -> carries_error r = false ->
  keeps_polling r = false
  /\ negb (carries_error r) && observes r "ACTIVE" = true.
Proof.
  unfold keeps_polling, in_progress. intros Hact Herr.
  destruct r as [e|st]; [discriminate|]. simpl in *.
  rewrite Hact, Herr. split; reflexivity.
Qed.

(** C2, as amended.  When every status fetched, the initial one and those
    of the 120 attempts, is free of error payload and in a state other than
    ACTIVE and FAILED (PROCESSING or any unexpected value), the poller
    returns [False] after the initial lookup and exactly [max_retries]
    attempts, each followed by its sleep: 121 lookups and 120 sleeps in
    all, and no lookup beyond. *)
Theorem in_progress_exhausts_budget env file nm w :
  name file = Some nm ->
  (forall k, k <= app.max_retries ->
     in_progress (files_get env nm (gets w + k)) = true) ->
  app.wait_for_file_processing env file w
  = (inr false, after_polling nm app.max_retries (after_get nm w))
  /\ gets (after_polling nm app.max_retries (after_get nm w))
     = gets w + 1 + app.max_retries
  /\ lookups (trace (after_polling nm app.max_retries (after_get nm w)))
     = lookups (trace w) + 1 + 120
  /\ sleeps (trace (after_polling nm app.max_retries (after_get nm w)))
     = sleeps (trace w) + 120.
Proof.
  intros Hn Hall.
  split.
  - apply wait_exhausted; [assumption| |].
    + apply in_progress_initial.
      specialize (Hall 0). rewrite Nat.add_0_r in Hall. apply Hall. lia.
    + intros k Hk. apply in_progress_keeps_polling, Hall. lia.
  - destruct (trace_exhausted nm app.max_retries w) as [Hl Hs].
    rewrite Hl, Hs. unfold app.max_retries. simpl gets. repeat split; lia.
Qed.

Lemma in_progress_exhausts_budget_witness :
  let env := mock [] (status "PROCESSING") in
  app.wait_for_file_processing env handle (init_world ∅)
  = (inr false, after_polling asset 120 (after_get asset (init_world ∅)))
  /\ gets (after_polling asset 120 (after_get asset (init_world ∅))) = 121.
Proof.
  intros env.
  destruct (in_progress_exhausts_budget env handle asset (init_world ∅)
              eq_refl (fun k _ => eq_refl))
    as (Hrun & Hgets & _).
  exact (conj Hrun Hgets).
Defined.

(** C2 as stated fails: a status sequence that never leaves PROCESSING but
    carries an error payload ends the poller at the first status fetched,
    before any attempt of the loop; with the payload on the third attempt
    only, the poller fails after 3 attempts, not 120. *)
Lemma processing_with_error_fails_early :
  (let env := mock [] (status_with_error "PROCESSING" "quota exceeded") in
   (forall n, observes (files_get env asset n) "PROCESSING" = true)
   /\ app.wait_for_file_processing env handle (init_world ∅)
      = (inr false, after_get asset (init_world ∅))
   /\ gets (after_get asset (init_world ∅)) = 1)
  /\
  (let env := mock [status "PROCESSING"; status "PROCESSING";
                    status "PROCESSING";
                    status_with_error "PROCESSING" "quota exceeded"]
                   (status "PROCESSING") in
   (forall n, observes (files_get env asset n) "PROCESSING" = true)
   /\ app.wait_for_file_processing env handle (init_world ∅)
      = (inr false,
         after_get asset (after_polling asset 2 (after_get asset (init_world ∅))))
   /\ gets (after_get asset
              (after_polling asset 2 (after_get asset (init_world ∅)))) = 4).
Proof.
  split; intros env.
  - split; [intros n; reflexivity|]. split; reflexivity.
  - split; [|split; reflexivity].
    intros n. do 4 (destruct n as [|n]; [reflexivity|]). reflexivity.
Qed.

(** C3, as amended.  When the initial lookup returns a status without
    error payload, every attempt before the [N]-th keeps polling (its
    lookup raised, or its status has no error payload and a state other
    than ACTIVE and FAILED), and attempt [N <= max_retries] observes ACTIVE
    without error payload, the poller returns [True] at attempt [N]: the
    initial lookup, [N - 1] attempts each followed by a sleep, and the
    [N]-th lookup, after which nothing is issued or slept. *)
Theorem active_on_attempt_succeeds env file nm w N :
  name file = Some nm ->
  1 <= N <= app.max_retries ->
  raises (files_get env nm (gets w))
  || carries_error (files_get env nm (gets w)) = false ->
  (forall k, 1 <= k < N ->
     keeps_polling (files_get env nm (gets w + k)) = true) ->
  observes (files_get env nm (gets w + N)) "ACTIVE" = true ->
  carries_error (files_get env nm (gets w + N)) = false ->
  app.wait_for_file_processing env file w
  = (inr true, after_get nm (after_polling nm (N - 1) (after_get nm w)))
  /\ lookups (trace (after_get nm (after_polling nm (N - 1) (after_get nm w))))
     = lookups (trace w) + 1 + N
  /\ sleeps (trace (after_get nm (after_polling nm (N - 1) (after_get nm w))))
     = sleeps (trace w) + (N - 1).
Proof.
  intros Hn HN H0 Hb Hact Herr.
  destruct (active_without_error_stops _ Hact Herr) as [Hstop Hres].
  split.
  - rewrite (wait_stops env file nm w N Hn H0 HN Hb Hstop).
    rewrite Hres. reflexivity.
  - destruct (trace_stopped nm (N - 1) w) as [Hl Hs].
    rewrite Hl, Hs. split; lia.
Qed.

Lemma active_on_attempt_succeeds_witness :
  let env := mock [status "PROCESSING"; status "PROCESSING"; lookup_error;
                   status "QUEUED"; status "ACTIVE"]
                  (status "FAILED") in
  first_active env asset 4
  /\ app.wait_for_file_processing env handle (init_world ∅)
     = (inr true,
        after_get asset (after_polling asset 3 (after_get asset (init_world ∅)))).
Proof.
  intros env. split.
  - split; [reflexivity|].
    intros k Hk. do 4 (destruct k as [|k]; [reflexivity|]). lia.
  - apply (active_on_attempt_succeeds env handle asset (init_world ∅) 4).
    + reflexivity.
    + unfold app.max_retries; lia.
    + reflexivity.
    + intros k Hk. do 4 (destruct k as [|k]; [reflexivity|]). lia.
    + reflexivity.
    + reflexivity.
Defined.

(** C3 as stated fails: ACTIVE first reported on attempt 1 together with
    an error payload, ACTIVE first reported on attempt 2 after a FAILED on
    attempt 1, and ACTIVE first reported on attempt 1 after an initial
    lookup that raised, all end in [False]. *)
Lemma first_active_does_not_imply_success :
  (let env := mock [status "PROCESSING";
                    status_with_error "ACTIVE" "quota exceeded"]
                   (status "ACTIVE") in
   first_active env asset 1
   /\ fst (app.wait_for_file_processing env handle (init_world ∅))
      = inr false)
  /\
  (let env := mock [status "PROCESSING"; status "FAILED"; status "ACTIVE"]
                   (status "ACTIVE") in
   first_active env asset 2
   /\ app.wait_for_file_processing env handle (init_world ∅)
      = (inr false,
         after_get asset (after_polling asset 0 (after_get asset (init_world ∅)))))
  /\
  (let env := mock [lookup_error; status "ACTIVE"] (status "ACTIVE") in
   first_active env asset 1
   /\ app.wait_for_file_processing env handle (init_world ∅)
      = (inr false, after_get asset (init_world ∅))).
Proof.
  split; [|split]; intros env; (split; [split; [reflexivity|]|reflexivity]).
  - intros k Hk; lia.
  - intros k Hk. do 2 (destruct k as [|k]; [reflexivity|]). lia.
  - intros k Hk; lia.
Qed.

(** C4, as amended.  Take a run whose initial lookup is good and whose
    attempt [j] raises.  That attempt does not leave the loop: it sleeps
    [retry_delay] and hands over to the next attempt.  If the other
    attempts before the [N]-th keep polling and attempt [N], later than [j]
    and within the budget, observes ACTIVE without error payload, the
    poller returns [True] after exactly [N] attempts, the raising one
    counted among them and followed by its sleep.  If the other attempts
    keep polling up to the end of the budget, the poller returns [False]
    after [max_retries] attempts: the raising attempt used one of them. *)
Theorem transient_error_is_retried env file nm w j :
  name file = Some nm ->
  raises (files_get env nm (gets w))
  || carries_error (files_get env nm (gets w)) = false ->
  1 <= j <= app.max_retries ->
  raises (files_get env nm (gets w + j)) = true ->
  (forall attempt w0,
     gets w0 = gets w + j ->
     app.poll_attempt env nm attempt w0
     = (inr None, after_sleep (after_get nm w0)))
  /\ (forall N,
        j < N <= app.max_retries ->
        (forall k, 1 <= k < N -> k <> j ->
           keeps_polling (files_get env nm (gets w + k)) = true) ->
        observes (files_get env nm (gets w + N)) "ACTIVE" = true ->
        carries_error (files_get env nm (gets w + N)) = false ->
        app.wait_for_file_processing env file w
        = (inr true, after_get nm (after_polling nm (N - 1) (after_get nm w)))
        /\ lookups (trace (after_get nm
                             (after_polling nm (N - 1) (after_get nm w))))
           = lookups (trace w) + 1 + N
        /\ sleeps (trace (after_get nm
                            (after_polling nm (N - 1) (after_get nm w))))
           = sleeps (trace w) + (N - 1))
  /\ ((forall k, 1 <= k <= app.max_retries -> k <> j ->
         keeps_polling (files_get env nm (gets w + k)) = true) ->
      app.wait_for_file_processing env file w
      = (inr false, after_polling nm app.max_retries (after_get nm w))).
Proof.
  intros Hn H0 Hj Hraise.
  assert (Hkeep : keeps_polling (files_get env nm (gets w + j)) = true)
    by (unfold keeps_polling; rewrite Hraise; reflexivity).
  split; [|split].
  - intros attempt w0 Hw0. apply poll_attempt_continue.
    rewrite Hw0. exact Hkeep.
  - intros N HN Hb Hact Herr.
    apply active_on_attempt_succeeds; try assumption; [lia|].
    intros k Hk. destruct (Nat.eq_dec k j) as [->|Hne];
      [exact Hkeep|now apply Hb].
  - intros Hall. apply wait_exhausted; try assumption.
    intros k Hk. destruct (Nat.eq_dec k j) as [->|Hne];
      [exact Hkeep|now apply Hall].
Qed.

Lemma transient_error_is_retried_witness :
  let env := mock [status "PROCESSING"; lookup_error; status "ACTIVE"]
                  (status "PROCESSING") in
  raises (files_get env asset 1) = true
  /\ observes (files_get env asset 2) "ACTIVE" = true
  /\ app.wait_for_file_processing env handle (init_world ∅)
     = (inr true,
        after_get asset (after_polling asset 1 (after_get asset (init_world ∅)))).
Proof.
  intros env.
  destruct (transient_error_is_retried env handle asset (init_world ∅) 1
              eq_refl eq_refl
              (conj (le_n 1) (le_n_S 0 119 (le_0_n 119))) eq_refl)
    as (_ & Hok & _).
  destruct (Hok 2) as (Hrun & _).
  - unfold app.max_retries; lia.
  - intros k Hk Hne. lia.
  - reflexivity.
  - reflexivity.
  - exact (conj eq_refl (conj eq_refl Hrun)).
Defined.

(** C4 as stated fails: after an attempt that raised, a later attempt that
    observes ACTIVE together with an error payload, or that comes after an
    attempt observing FAILED, does not make the poller succeed. *)
Lemma recovering_active_does_not_imply_success :
  (let env := mock [status "PROCESSING"; lookup_error;
                    status_with_error "ACTIVE" "quota exceeded"]
                   (status "ACTIVE") in
   raises (files_get env asset 1) = true
   /\ observes (files_get env asset 2) "ACTIVE" = true
   /\ app.wait_for_file_processing env handle (init_world ∅)
      = (inr false,
         after_get asset (after_polling asset 1 (after_get asset (init_world ∅)))))
  /\
  (let env := mock [status "PROCESSING"; lookup_error; status "FAILED";
                    status "ACTIVE"]
                   (status "ACTIVE") in
   raises (files_get env asset 1) = true
   /\ observes (files_get env asset 3) "ACTIVE" = true
   /\ app.wait_for_file_processing env handle (init_world ∅)
      = (inr false,
         after_get asset (after_polling asset 1 (after_get asset (init_world ∅))))).
Proof.
  split; intros env; repeat split.
Qed.

(** * The request handlers *)

(** The poller never raises, leaves the filesystem alone, and in a request
    (no lookup issued before it) its verdict and trace are [ready] and
    [poll_trace]. *)
Lemma wait_in_request env file w :
  gets w = 0 ->
  app.wait_for_file_processing env file w
  = (inr (ready env file),
     mkWorld (fs w) (poll_gets env file) (trace w ++ poll_trace env file)).
Proof.
  intros Hg. unfold ready, poll_gets, poll_trace.
  destruct (name file) as [nm|] eqn:Hn.
  - destruct (wait_cases env file nm w Hn)
      as [[H0 Hw]|[(H0 & Hall & Hw)|(H0 & N & HN & Hb & Hs & Hw)]];
      rewrite Hw; rewrite Hg in *.
    + rewrite (wait_initial_failure env file nm (init_world ∅) Hn H0).
      unfold after_get; simpl. rewrite Hg. reflexivity.
    + rewrite (wait_exhausted env file nm (init_world ∅) Hn H0 Hall).
      unfold after_polling, after_get; simpl. rewrite Hg.
      rewrite <- app_assoc. reflexivity.
    + rewrite (wait_stops env file nm (init_world ∅) N Hn H0 HN Hb Hs).
      unfold after_polling, after_get; simpl. rewrite Hg.
      rewrite <- !app_assoc. reflexivity.
  - rewrite !wait_no_name by assumption. simpl.
    rewrite app_nil_r, <- Hg. destruct w; reflexivity.
Qed.

(** Filesystem primitives on the stored temporary file. *)
Lemma exists_stored p c m g tr :
  os_path_exists p (mkWorld (<[p := c]> m) g tr)
  = (inr true, mkWorld (<[p := c]> m) g tr).
Proof.
  unfold os_path_exists; simpl. rewrite lookup_insert_eq.
  rewrite bool_decide_true by (eexists; reflexivity). reflexivity.
Qed.

Lemma getsize_stored p c m g tr :
  os_path_getsize p (mkWorld (<[p := c]> m) g tr)
  = (inr (String.length c), mkWorld (<[p := c]> m) g tr).
Proof. unfold os_path_getsize; simpl. rewrite lookup_insert_eq. reflexivity. Qed.

Lemma unlink_stored p c m g tr :
  os_unlink p (mkWorld (<[p := c]> m) g tr)
  = (inr tt, mkWorld (delete p (<[p := c]> m)) g (tr ++ [EvUnlink p])).
Proof. unfold os_unlink; simpl. rewrite lookup_insert_eq. reflexivity. Qed.

Lemma unlink_deleted p m g tr :
  os_unlink p (mkWorld (delete p m) g tr)
  = (inl (FileNotFoundError p), mkWorld (delete p m) g tr).
Proof. unfold os_unlink; simpl. rewrite lookup_delete_eq. reflexivity. Qed.

(** ** Exit paths of src/app.py *)

Lemma app_read_fails env files e :
  video_read env = inl e ->
  app.serve env files
  = (Failure 500 (str e), mkWorld (<[temp_name env := ""]> files) 0 [EvIngest]).
Proof.
  intros Hread. unfold app.serve, app.process_video, init_world.
  step. rewrite Hread. reflexivity.
Qed.

Lemma app_upload_fails env files c e :
  video_read env = inr c ->
  files_upload env = inl e ->
  app.serve env files
  = (Failure 500 (str (HTTPException 400 (str e))),
     mkWorld (delete (temp_name env) (stored env c files)) 0
             [EvIngest; EvUpload; EvUnlink (temp_name env)]).
Proof.
  intros Hread Hup. unfold app.serve, app.process_video, init_world, stored.
  step. rewrite Hread. step. rewrite exists_stored. step.
  rewrite getsize_stored. step. rewrite Hup. step.
  rewrite unlink_stored. step. reflexivity.
Qed.

Lemma app_not_ready env files c file :
  video_read env = inr c ->
  files_upload env = inr file ->
  ready env file = false ->
  app.serve env files
  = (Failure 500
       (str (HTTPException 400
          (str (HTTPException 400
                  "File processing timeout. Please try again.")))),
     mkWorld (delete (temp_name env) (stored env c files))
             (poll_gets env file)
             ([EvIngest; EvUpload] ++ poll_trace env file
              ++ [EvUnlink (temp_name env)])).
Proof.
  intros Hread Hup Hready.
  unfold app.serve, app.process_video, init_world, stored.
  step. rewrite Hread. step. rewrite exists_stored. step.
  rewrite getsize_stored. step. rewrite Hup. step.
  rewrite wait_in_request by reflexivity. rewrite Hready. step.
  rewrite unlink_stored. step. reflexivity.
Qed.

Lemma app_generation_fails env files c file e :
  video_read env = inr c ->
  files_upload env = inr file ->
  ready env file = true ->
  generate_content env = inl e ->
  app.serve env files
  = (Failure 500
       (str (HTTPException 400
          (str (HTTPException 400 ("Error generating content: " +:+ str e))))),
     mkWorld (delete (temp_name env) (stored env c files))
             (poll_gets env file)
             ([EvIngest; EvUpload] ++ poll_trace env file
              ++ [EvGenerate; EvUnlink (temp_name env)])).
Proof.
  intros Hread Hup Hready Hgen.
  unfold app.serve, app.process_video, init_world, stored.
  step. rewrite Hread. step. rewrite exists_stored. step.
  rewrite getsize_stored. step. rewrite Hup. step.
  rewrite wait_in_request by reflexivity. rewrite Hready. step.
  rewrite Hgen. step. rewrite unlink_stored. step.
  rewrite <- !app_assoc. reflexivity.
Qed.

Lemma app_agent_fails env files c file text e :
  video_read env = inr c ->
  files_upload env = inr file ->
  ready env file = true ->
  generate_content env = inr text ->
  agent_run env = inl e ->
  app.serve env files
  = (Failure 500 (str (FileNotFoundError (temp_name env))),
     mkWorld (delete (temp_name env) (stored env c files))
             (poll_gets env file)
             ([EvIngest; EvUpload] ++ poll_trace env file
              ++ [EvGenerate; EvUnlink (temp_name env); EvAgentRun])).
Proof.
  intros Hread Hup Hready Hgen Hrun.
  unfold app.serve, app.process_video, init_world, stored.
  step. rewrite Hread. step. rewrite exists_stored. step.
  rewrite getsize_stored. step. rewrite Hup. step.
  rewrite wait_in_request by reflexivity. rewrite Hready. step.
  rewrite Hgen. step. rewrite unlink_stored. step.
  rewrite Hrun. step. rewrite unlink_deleted. step.
  rewrite <- !app_assoc. reflexivity.
Qed.

Lemma app_success env files c file text outcome :
  video_read env = inr c ->
  files_upload env = inr file ->
  ready env file = true ->
  generate_content env = inr text ->
  agent_run env = inr outcome ->
  app.serve env files
  = (Success (Description text outcome),
     mkWorld (delete (temp_name env) (stored env c files))
             (poll_gets env file)
             ([EvIngest; EvUpload] ++ poll_trace env file
              ++ [EvGenerate; EvUnlink (temp_name env); EvAgentRun])).
Proof.
  intros Hread Hup Hready Hgen Hrun.
  unfold app.serve, app.process_video, init_world, stored.
  step. rewrite Hread. step. rewrite exists_stored. step.
  rewrite getsize_stored. step. rewrite Hup. step.
  rewrite wait_in_request by reflexivity. rewrite Hready. step.
  rewrite Hgen. step. rewrite unlink_stored. step.
  rewrite Hrun. step.
  rewrite <- !app_assoc. reflexivity.
Qed.

(** ** Exit paths of src/main.py *)

Lemma main_read_fails env files e :
  video_read env = inl e ->
  main.serve env files
  = (Failure 500 (str e), mkWorld (<[temp_name env := ""]> files) 0 [EvIngest]).
Proof.
  intros Hread. unfold main.serve, main.process_video, init_world.
  step. rewrite Hread. reflexivity.
Qed.

Lemma main_generation_fails env files c e :
  video_read env = inr c ->
  generate_content env = inl e ->
  main.serve env files
  = (Failure 500 (str e), mkWorld (stored env c files) 0 [EvIngest; EvGenerate]).
Proof.
  intros Hread Hgen. unfold main.serve, main.process_video, init_world, stored.
  step. rewrite Hread. step. rewrite Hgen. reflexivity.
Qed.

Lemma main_agent_fails env files c text e :
  video_read env = inr c ->
  generate_content env = inr text ->
  agent_run env = inl e ->
  main.serve env files
  = (Failure 500 (str e),
     mkWorld (delete (temp_name env) (stored env c files)) 0
             [EvIngest; EvGenerate; EvUnlink (temp_name env); EvAgentRun]).
Proof.
  intros Hread Hgen Hrun.
  unfold main.serve, main.process_video, init_world, stored.
  step. rewrite Hread. step. rewrite Hgen. step.
  rewrite unlink_stored. step. rewrite Hrun. reflexivity.
Qed.

Lemma main_success env files c text outcome :
  video_read env = inr c ->
  generate_content env = inr text ->
  agent_run env = inr outcome ->
  main.serve env files
  = (Success (TaskResponse text "success"),
     mkWorld (delete (temp_name env) (stored env c files)) 0
             [EvIngest; EvGenerate; EvUnlink (temp_name env); EvAgentRun]).
Proof.
  intros Hread Hgen Hrun.
  unfold main.serve, main.process_video, init_world, stored.
  step. rewrite Hread. step. rewrite Hgen. step.
  rewrite unlink_stored. step. rewrite Hrun. reflexivity.
Qed.

(** ** Cleanup of the temporary file *)


(** src/main.py deletes the temporary file once generation has succeeded. *)
Lemma main_cleans_up_after_generation env files c text :
  video_read env = inr c ->
  generate_content env = inr text ->
  fs (snd (main.serve env files)) !! temp_name env = None.
Proof.
  intros Hread Hgen.
  destruct (agent_run env) as [e|outcome] eqn:Hrun.
  - rewrite (main_agent_fails env files c text e Hread Hgen Hrun).
    apply lookup_delete_eq.
  - rewrite (main_success env files c text outcome Hread Hgen Hrun).
    apply lookup_delete_eq.
Qed.

(** C6: the code misses the claim.  In src/main.py a generation call that
    raises ends the request with the temporary file, upload body included,
    still on the filesystem; in both variants an upload body that cannot be
    read leaves the freshly created, empty temporary file behind. *)
Theorem temp_file_left_behind :
  (let env := request [] (status "ACTIVE") (inr "0123456789") (inr handle)
                      (inl (PyException "429 quota exceeded")) (inr "done") in
   fst (main.serve env ∅) = Failure 500 "429 quota exceeded"
   /\ fs (snd (main.serve env ∅)) !! temp_name env = Some "0123456789")
  /\
  (let env := request [] (status "ACTIVE")
                      (inl (PyException "client disconnected")) (inr handle)
                      (inr "Click login button") (inr "done") in
   fst (app.serve env ∅) = Failure 500 "client disconnected"
   /\ fs (snd (app.serve env ∅)) !! temp_name env = Some ""
   /\ fst (main.serve env ∅) = Failure 500 "client disconnected"
   /\ fs (snd (main.serve env ∅)) !! temp_name env = Some "").
Proof.
  split; intros env.
  - rewrite (main_generation_fails env ∅ "0123456789"
               (PyException "429 quota exceeded") eq_refl eq_refl).
    split; [reflexivity|]. apply lookup_insert_eq.
  - rewrite (app_read_fails env ∅ (PyException "client disconnected") eq_refl).
    rewrite (main_read_fails env ∅ (PyException "client disconnected") eq_refl).
    repeat split; apply lookup_insert_eq.
Qed.

(** ** Status codes *)

Lemma main_failures_are_500 env files code detail :
  fst (main.serve env files) = Failure code detail -> code = 500.
Proof.
  destruct (video_read env) as [e|c] eqn:Hread.
  { rewrite (main_read_fails env files e Hread). simpl. congruence. }
  destruct (generate_content env) as [e|text] eqn:Hgen.
  { rewrite (main_generation_fails env files c e Hread Hgen). simpl. congruence. }
  destruct (agent_run env) as [e|outcome] eqn:Hrun.
  - rewrite (main_agent_fails env files c text e Hread Hgen Hrun).
    simpl. congruence.
  - rewrite (main_success env files c text outcome Hread Hgen Hrun).
    simpl. discriminate.
Qed.

(** In src/app.py the 400 raised for an upload fault, a poll timeout or a
    generation fault is raised inside the outermost [try], whose handler
    turns every exception into a 500: no failing request answers 4xx. *)
Lemma app_failures_are_500 env files code detail :
  fst (app.serve env files) = Failure code detail -> code = 500.
Proof.
  destruct (video_read env) as [e|c] eqn:Hread.
  { rewrite (app_read_fails env files e Hread). simpl. congruence. }
  destruct (files_upload env) as [e|file] eqn:Hup.
  { rewrite (app_upload_fails env files c e Hread Hup). simpl. congruence. }
  destruct (ready env file) eqn:Hready.
  2:{ rewrite (app_not_ready env files c file Hread Hup Hready).
      simpl. congruence. }
  destruct (generate_content env) as [e|text] eqn:Hgen.
  { rewrite (app_generation_fails env files c file e Hread Hup Hready Hgen).
    simpl. congruence. }
  destruct (agent_run env) as [e|outcome] eqn:Hrun.
  - rewrite (app_agent_fails env files c file text e Hread Hup Hready Hgen Hrun).
    simpl. congruence.
  - rewrite (app_success env files c file text outcome
               Hread Hup Hready Hgen Hrun).
    simpl. discriminate.
Qed.

(** C7, as amended.  Every failing request to src/main.py answers status
    500 with the text of the exception as detail, whatever the fault; in
    src/app.py an upload body that cannot be read answers 500 with the text
    of the exception; in both variants a failing automation run answers
    500 with a detail string. *)
Theorem failures_answer_500_by_design env files :
  (forall code detail,
     fst (main.serve env files) = Failure code detail -> code = 500)
  /\ (forall e,
        video_read env = inl e ->
        fst (main.serve env files) = Failure 500 (str e)
        /\ fst (app.serve env files) = Failure 500 (str e))
  /\ (forall c e,
        video_read env = inr c ->
        generate_content env = inl e ->
        fst (main.serve env files) = Failure 500 (str e))
  /\ (forall c text e,
        video_read env = inr c ->
        generate_content env = inr text ->
        agent_run env = inl e ->
        fst (main.serve env files) = Failure 500 (str e)
        /\ forall file,
             files_upload env = inr file ->
             ready env file = true ->
             exists detail, fst (app.serve env files) = Failure 500 detail).
Proof.
  split; [apply main_failures_are_500|]. split; [|split].
  - intros e Hread.
    rewrite (main_read_fails env files e Hread).
    rewrite (app_read_fails env files e Hread). split; reflexivity.
  - intros c e Hread Hgen.
    rewrite (main_generation_fails env files c e Hread Hgen). reflexivity.
  - intros c text e Hread Hgen Hrun.
    rewrite (main_agent_fails env files c text e Hread Hgen Hrun).
    split; [reflexivity|]. intros file Hup Hready.
    rewrite (app_agent_fails env files c file text e Hread Hup Hready Hgen Hrun).
    eexists; reflexivity.
Qed.

Lemma failures_answer_500_by_design_witness :
  let env := request [] (status "ACTIVE") (inr "0123456789") (inr handle)
                     (inl (PyException "blocked by safety filter"))
                     (inr "done") in
  fst (main.serve env ∅) = Failure 500 "blocked by safety filter".
Proof.
  intros env.
  destruct (failures_answer_500_by_design env ∅) as (_ & _ & Hgen & _).
  exact (Hgen "0123456789" (PyException "blocked by safety filter")
              eq_refl eq_refl).
Defined.

(** C7 as stated fails: in src/main.py a generation request that the
    remote service rejects, and an upload body that cannot be read, answer
    500, which is not a 4xx status. *)
Lemma generation_rejection_answers_500 :
  (let env := request [] (status "ACTIVE") (inr "0123456789") (inr handle)
                      (inl (PyException "blocked by safety filter"))
                      (inr "done") in
   fst (main.serve env ∅) = Failure 500 "blocked by safety filter")
  /\
  (let env := request [] (status "ACTIVE")
                      (inl (PyException "client disconnected")) (inr handle)
                      (inr "Click login button") (inr "done") in
   fst (main.serve env ∅) = Failure 500 "client disconnected")
  /\ client_error 500 = false.
Proof.
  split; [|split]; [intros env|intros env|reflexivity].
  - rewrite (main_generation_fails env ∅ "0123456789"
               (PyException "blocked by safety filter") eq_refl eq_refl).
    reflexivity.
  - rewrite (main_read_fails env ∅ (PyException "client disconnected") eq_refl).
    reflexivity.
Qed.

(** ** A failing automation run in src/app.py *)

(** C10.  In src/app.py, when the upload, the readiness poll and the
    generation succeed and the automation run raises, the temporary file
    has been deleted before the run, exactly once; the handler of the
    enclosing [try] deletes it again, that deletion raises, and the
    response is a 500 whose detail is the text of the file-deletion error,
    the same whatever the automation error was. *)
Theorem agent_failure_reports_unlink_error env files c file text e :
  video_read env = inr c ->
  files_upload env = inr file ->
  ready env file = true ->
  generate_content env = inr text ->
  agent_run env = inl e ->
  fst (app.serve env files)
  = Failure 500 (str (FileNotFoundError (temp_name env)))
  /\ fs (snd (app.serve env files)) !! temp_name env = None
  /\ trace (snd (app.serve env files))
     = ([EvIngest; EvUpload] ++ poll_trace env file
        ++ [EvGenerate; EvUnlink (temp_name env); EvAgentRun])%list
  /\ os_unlink (temp_name env) (snd (app.serve env files))
     = (inl (FileNotFoundError (temp_name env)), snd (app.serve env files)).
Proof.
  intros Hread Hup Hready Hgen Hrun.
  rewrite (app_agent_fails env files c file text e Hread Hup Hready Hgen Hrun).
  cbn [fst snd fs trace].
  split; [reflexivity|]. split; [apply lookup_delete_eq|].
  split; [reflexivity|]. apply unlink_deleted.
Qed.

Lemma agent_failure_reports_unlink_error_witness :
  let env := request [status "PROCESSING"; status "ACTIVE"] (status "ACTIVE")
                     (inr "0123456789") (inr handle)
                     (inr "Click login button, then enter username 'alice'")
                     (inl (PyException "browser crashed")) in
  fst (app.serve env ∅)
  = Failure 500 "[Errno 2] No such file or directory: '/tmp/tmpk3v9.mp4'".
Proof.
  intros env.
  destruct (agent_failure_reports_unlink_error env ∅ "0123456789" handle
              "Click login button, then enter username 'alice'"
              (PyException "browser crashed")
              eq_refl eq_refl eq_refl eq_refl eq_refl)
    as (Hresp & _).
  exact Hresp.
Defined.

(** ** The two variants side by side *)

Lemma shared_stages_app tr1 tr2 :
  without_upload_and_poll (stages (tr1 ++ tr2))
  = (without_upload_and_poll (stages tr1)
     ++ without_upload_and_poll (stages tr2))%list.
Proof.
  unfold without_upload_and_poll, stages.
  rewrite omap_app, List.filter_app. reflexivity.
Qed.

Lemma shared_stages_polling nm n :
  without_upload_and_poll (stages (polling nm n)) = [].
Proof. induction n as [|n IH]; [reflexivity|]. simpl. exact IH. Qed.

(** The poller's steps all belong to the poll stage. *)
Lemma shared_stages_poll_trace env file :
  without_upload_and_poll (stages (poll_trace env file)) = [].
Proof.
  unfold poll_trace.
  destruct (name file) as [nm|] eqn:Hn.
  - destruct (wait_cases env file nm (init_world ∅) Hn)
      as [[_ Hw]|[(_ & _ & Hw)|(_ & N & _ & _ & _ & Hw)]];
      rewrite Hw; cbn [snd trace after_get after_polling init_world fs gets];
      rewrite ?shared_stages_app, ?shared_stages_polling; reflexivity.
  - rewrite wait_no_name by assumption. reflexivity.
Qed.

(** C8, as amended.  For identical inputs and identical remote responses,
    whenever nothing fails in the upload and readiness-poll stages that
    only src/app.py has, the stage sequence of src/app.py with its upload
    and poll steps removed is that of src/main.py (ingest, generate,
    delegate, as far as the request gets), and the two outcomes agree:
    both succeed with the same generated text, or both fail. *)
Theorem variants_agree_past_upload_and_poll env files :
  upload_and_poll_pass env = true ->
  without_upload_and_poll (stages (trace (snd (app.serve env files))))
  = stages (trace (snd (main.serve env files)))
  /\ same_outcome (fst (app.serve env files)) (fst (main.serve env files)).
Proof.
  unfold upload_and_poll_pass.
  destruct (video_read env) as [e|c] eqn:Hread.
  { intros _.
    rewrite (app_read_fails env files e Hread).
    rewrite (main_read_fails env files e Hread).
    split; [reflexivity|]. exact I. }
  destruct (files_upload env) as [e|file] eqn:Hup; [discriminate|].
  intros Hready.
  destruct (generate_content env) as [e|text] eqn:Hgen.
  { rewrite (app_generation_fails env files c file e Hread Hup Hready Hgen).
    rewrite (main_generation_fails env files c e Hread Hgen).
    cbn [fst snd trace]. split; [|exact I].
    rewrite !shared_stages_app, shared_stages_poll_trace. reflexivity. }
  destruct (agent_run env) as [e|outcome] eqn:Hrun.
  - rewrite (app_agent_fails env files c file text e Hread Hup Hready Hgen Hrun).
    rewrite (main_agent_fails env files c text e Hread Hgen Hrun).
    cbn [fst snd trace]. split; [|exact I].
    rewrite !shared_stages_app, shared_stages_poll_trace. reflexivity.
  - rewrite (app_success env files c file text outcome
               Hread Hup Hready Hgen Hrun).
    rewrite (main_success env files c text outcome Hread Hgen Hrun).
    cbn [fst snd trace]. split; [|reflexivity].
    rewrite !shared_stages_app, shared_stages_poll_trace. reflexivity.
Qed.

Lemma variants_agree_past_upload_and_poll_witness :
  let env := mock [status "PROCESSING"; status "ACTIVE"] (status "ACTIVE") in
  without_upload_and_poll (stages (trace (snd (app.serve env ∅))))
  = [Ingest; Generate; Delegate]
  /\ stages (trace (snd (main.serve env ∅))) = [Ingest; Generate; Delegate]
  /\ same_outcome (fst (app.serve env ∅)) (fst (main.serve env ∅)).
Proof.
  intros env.
  destruct (variants_agree_past_upload_and_poll env ∅ eq_refl)
    as [Hstages Hsame].
  split; [|split; [|exact Hsame]].
  - rewrite Hstages. reflexivity.
  - reflexivity.
Defined.

(** C8 as stated fails: with every remote response the same, src/app.py
    goes through the upload and poll stages and src/main.py through
    neither; and when the poller sees FAILED, or the upload raises,
    src/app.py fails while src/main.py succeeds. *)
Lemma variants_differ :
  (let env := mock [status "PROCESSING"; status "ACTIVE"] (status "ACTIVE") in
   stages (trace (snd (app.serve env ∅)))
   = [Ingest; Upload; Poll; Poll; Generate; Delegate]
   /\ stages (trace (snd (main.serve env ∅))) = [Ingest; Generate; Delegate])
  /\
  (let env := mock [status "PROCESSING"; status "FAILED"] (status "FAILED") in
   (exists code detail, fst (app.serve env ∅) = Failure code detail)
   /\ fst (main.serve env ∅)
      = Success (TaskResponse
                   "Click login button, then enter username 'alice'"
                   "success")
   /\ ~ same_outcome (fst (app.serve env ∅)) (fst (main.serve env ∅)))
  /\
  (let env := request [] (status "ACTIVE") (inr "0123456789")
                      (inl (PyException "upload refused"))
                      (inr "Click login button") (inr "done") in
   (exists code detail, fst (app.serve env ∅) = Failure code detail)
   /\ fst (main.serve env ∅)
      = Success (TaskResponse "Click login button" "success")).
Proof.
  split; [|split]; intros env.
  - rewrite (app_success env ∅ "0123456789" handle
               "Click login button, then enter username 'alice'" "done"
               eq_refl eq_refl eq_refl eq_refl eq_refl).
    rewrite (main_success env ∅ "0123456789"
               "Click login button, then enter username 'alice'" "done"
               eq_refl eq_refl eq_refl).
    split; [do 2 eexists; reflexivity|reflexivity].
  - rewrite (app_not_ready env ∅ "0123456789" handle eq_refl eq_refl eq_refl).
    rewrite (main_success env ∅ "0123456789"
               "Click login button, then enter username 'alice'" "done"
               eq_refl eq_refl eq_refl).
    cbn [fst]. split; [do 2 eexists; reflexivity|]. split; [reflexivity|].
    intros H; exact H.
  - rewrite (app_upload_fails env ∅ "0123456789"
               (PyException "upload refused") eq_refl eq_refl).
    rewrite (main_success env ∅ "0123456789" "Click login button" "done"
               eq_refl eq_refl eq_refl).
    split; [do 2 eexists; reflexivity|reflexivity].
Qed.

(** * Further properties of the poller *)

Lemma slept_app tr1 tr2 : slept (tr1 ++ tr2) = slept tr1 + slept tr2.
Proof.
  induction tr1 as [|e tr1 IH]; [reflexivity|].
  destruct e; simpl; rewrite IH; lia.
Qed.

Lemma slept_polling nm n : slept (polling nm n) = app.retry_delay * n.
Proof.
  induction n as [|n IH]; [reflexivity|].
  simpl polling. simpl slept. rewrite IH. unfold app.retry_delay. lia.
Qed.

Lemma poll_events_polling nm n :
  Forall (fun e => poll_event e = true) (polling nm n).
Proof.
  induction n as [|n IH]; [constructor|].
  simpl. repeat constructor. exact IH.
Qed.

(** The shape of every run of the poller: a boolean verdict, the
    filesystem as it was, and a trace extended by at most
    [max_retries + 1] lookups and [max_retries] sleeps of [retry_delay]. *)
Lemma wait_run_shape env file w :
  exists b n tr,
    app.wait_for_file_processing env file w
    = (inr b, mkWorld (fs w) (gets w + n) (trace w ++ tr))
    /\ lookups tr = n
    /\ n <= app.max_retries + 1
    /\ sleeps tr <= app.max_retries
    /\ slept tr = app.retry_delay * sleeps tr
    /\ Forall (fun e => poll_event e = true) tr.
Proof.
  destruct (name file) as [nm|] eqn:Hn.
  - destruct (wait_cases env file nm w Hn)
      as [[_ Hw]|[(_ & _ & Hw)|(_ & N & HN & _ & _ & Hw)]].
    + exists false, 1, [EvFilesGet nm]. rewrite Hw.
      unfold after_get. rewrite Nat.add_1_r.
      split; [reflexivity|]. split; [reflexivity|].
      split; [lia|]. split; [unfold sleeps; simpl; lia|].
      split; [reflexivity|]. repeat constructor.
    + exists false, (1 + app.max_retries),
        (EvFilesGet nm :: polling nm app.max_retries).
      rewrite Hw. unfold after_polling, after_get; cbn [fs gets trace].
      split; [|split; [|split; [|split; [|split]]]].
      * do 2 f_equal; [lia|].
        rewrite <- app_assoc. reflexivity.
      * change (EvFilesGet nm :: polling nm app.max_retries)
          with ([EvFilesGet nm] ++ polling nm app.max_retries)%list.
        rewrite lookups_app, lookups_polling. reflexivity.
      * lia.
      * change (EvFilesGet nm :: polling nm app.max_retries)
          with ([EvFilesGet nm] ++ polling nm app.max_retries)%list.
        rewrite sleeps_app, sleeps_polling. unfold sleeps; simpl. lia.
      * change (EvFilesGet nm :: polling nm app.max_retries)
          with ([EvFilesGet nm] ++ polling nm app.max_retries)%list.
        rewrite slept_app, sleeps_app, slept_polling, sleeps_polling.
        reflexivity.
      * constructor; [reflexivity|apply poll_events_polling].
    + exists (negb (carries_error (files_get env nm (gets w + N)))
              && observes (files_get env nm (gets w + N)) "ACTIVE"),
        (N + 1),
        ([EvFilesGet nm] ++ polling nm (N - 1) ++ [EvFilesGet nm])%list.
      rewrite Hw. unfold after_polling, after_get; cbn [fs gets trace].
      split; [|split; [|split; [|split; [|split]]]].
      * do 2 f_equal; [lia|].
        rewrite <- !app_assoc. reflexivity.
      * rewrite !lookups_app, lookups_polling. unfold lookups; simpl. lia.
      * lia.
      * rewrite !sleeps_app, sleeps_polling. unfold sleeps; simpl. lia.
      * rewrite !slept_app, !sleeps_app, slept_polling, sleeps_polling.
        unfold sleeps; simpl. lia.
      * apply Forall_app; split; [repeat constructor|].
        apply Forall_app; split; [apply poll_events_polling|repeat constructor].
  - exists false, 0, []. rewrite wait_no_name by assumption.
    rewrite Nat.add_0_r, app_nil_r.
    split; [destruct w; reflexivity|]. split; [reflexivity|].
    split; [lia|]. split; [unfold sleeps; simpl; lia|].
    split; [reflexivity|]. constructor.
Qed.

(** X1.  Whatever the status lookups answer or raise, the poller returns
    a boolean and never an exception, leaves the filesystem as it found
    it, and adds nothing to the trace but status lookups and sleeps. *)
Theorem poller_only_looks_up_and_sleeps env file w :
  exists b tr,
    fst (app.wait_for_file_processing env file w) = inr b
    /\ fs (snd (app.wait_for_file_processing env file w)) = fs w
    /\ trace (snd (app.wait_for_file_processing env file w))
       = (trace w ++ tr)%list
    /\ Forall (fun e => poll_event e = true) tr.
Proof.
  destruct (wait_run_shape env file w) as (b & n & tr & Hw & _ & _ & _ & _ & Hev).
  exists b, tr. rewrite Hw. repeat split; assumption.
Qed.

(** X2.  No run of the poller issues more than [max_retries + 1 = 121]
    status lookups or sleeps more than [max_retries = 120] times, and the
    time it sleeps is [retry_delay] per sleep, at most 600 seconds. *)
Theorem poller_stays_within_budget env file w :
  gets (snd (app.wait_for_file_processing env file w)) <= gets w + 121
  /\ sleeps (trace (snd (app.wait_for_file_processing env file w)))
     <= sleeps (trace w) + 120
  /\ slept (trace (snd (app.wait_for_file_processing env file w)))
     <= slept (trace w) + 600
  /\ slept (trace (snd (app.wait_for_file_processing env file w)))
     - slept (trace w)
     = 5 * (sleeps (trace (snd (app.wait_for_file_processing env file w)))
            - sleeps (trace w)).
Proof.
  destruct (wait_run_shape env file w)
    as (b & n & tr & Hw & Hl & Hn & Hs & Ht & _).
  rewrite Hw. cbn [snd gets trace].
  rewrite sleeps_app, slept_app.
  unfold app.max_retries, app.retry_delay in *. repeat split; lia.
Qed.

(** X3.  The poller returns [True] exactly when the handle has a name, the
    initial lookup returns a status without error payload, and some
    attempt [N] within the budget observes ACTIVE without error payload
    after attempts that all kept polling. *)
Theorem poller_succeeds_iff env file w :
  fst (app.wait_for_file_processing env file w) = inr true
  <-> exists nm N,
        name file = Some nm
        /\ 1 <= N <= app.max_retries
        /\ raises (files_get env nm (gets w))
           || carries_error (files_get env nm (gets w)) = false
        /\ (forall k, 1 <= k < N ->
              keeps_polling (files_get env nm (gets w + k)) = true)
        /\ observes (files_get env nm (gets w + N)) "ACTIVE" = true
        /\ carries_error (files_get env nm (gets w + N)) = false.
Proof.
  split.
  - intros Hrun.
    destruct (name file) as [nm|] eqn:Hn.
    + destruct (wait_cases env file nm w Hn)
        as [[_ Hw]|[(_ & _ & Hw)|(H0 & N & HN & Hb & _ & Hw)]];
        rewrite Hw in Hrun; cbn [fst] in Hrun; try discriminate.
      injection Hrun as Hres.
      apply andb_true_iff in Hres as [Herr Hact].
      apply negb_true_iff in Herr.
      exists nm, N. repeat split; try assumption; lia.
    + rewrite wait_no_name in Hrun by assumption. discriminate.
  - intros (nm & N & Hn & HN & H0 & Hb & Hact & Herr).
    destruct (active_without_error_stops _ Hact Herr) as [Hstop Hres].
    rewrite (wait_stops env file nm w N Hn H0 HN Hb Hstop).
    cbn [fst]. rewrite Hres. reflexivity.
Qed.

(** X4.  A run of the poller depends on the initial lookup only through
    whether it raised and whether its status carries an error payload, the
    state of the initial status playing no part, and on the answers of the
    [max_retries] lookups that follow and on nothing later. *)
Theorem poller_ignores_initial_state env1 env2 file nm w :
  name file = Some nm ->
  raises (files_get env1 nm (gets w)) = raises (files_get env2 nm (gets w)) ->
  carries_error (files_get env1 nm (gets w))
  = carries_error (files_get env2 nm (gets w)) ->
  (forall k, 1 <= k <= app.max_retries ->
     files_get env1 nm (gets w + k) = files_get env2 nm (gets w + k)) ->
  app.wait_for_file_processing env1 file w
  = app.wait_for_file_processing env2 file w.
Proof.
  intros Hn Hr Hc Hsame.
  destruct (wait_cases env1 file nm w Hn)
    as [[H0 Hw]|[(H0 & Hall & Hw)|(H0 & N & HN & Hb & Hs & Hw)]];
    rewrite Hw; rewrite Hr, Hc in H0; symmetry.
  - now apply wait_initial_failure.
  - apply wait_exhausted; [assumption..|].
    intros k Hk. rewrite <- Hsame by assumption. now apply Hall.
  - rewrite (Hsame N HN).
    apply wait_stops; [assumption..| |].
    + intros k Hk. rewrite <- Hsame by lia. now apply Hb.
    + rewrite <- Hsame by assumption. exact Hs.
Qed.

Lemma poller_ignores_initial_state_witness :
  app.wait_for_file_processing
    (mock [status "FAILED"; status "PROCESSING"; status "ACTIVE"]
          (status "PROCESSING"))
    handle (init_world ∅)
  = app.wait_for_file_processing
      (mock [status "ACTIVE"; status "PROCESSING"; status "ACTIVE"]
            (status "PROCESSING"))
      handle (init_world ∅).
Proof.
  apply (poller_ignores_initial_state
           (mock [status "FAILED"; status "PROCESSING"; status "ACTIVE"]
                 (status "PROCESSING"))
           (mock [status "ACTIVE"; status "PROCESSING"; status "ACTIVE"]
                 (status "PROCESSING"))
           handle asset (init_world ∅)).
  - reflexivity.
  - reflexivity.
  - reflexivity.
  - intros k Hk. destruct k as [|k]; [lia|reflexivity].
Defined.

(** * Further properties of the request handlers *)

(** The poller's part of a request's trace. *)
Lemma poll_trace_shape env file :
  Forall (fun e => poll_event e = true) (poll_trace env file)
  /\ lookups (poll_trace env file) <= 121
  /\ sleeps (poll_trace env file) <= 120
  /\ slept (poll_trace env file) <= 600.
Proof.
  unfold poll_trace.
  destruct (wait_run_shape env file (init_world ∅))
    as (b & n & tr & Hw & Hl & Hn & Hs & Ht & Hev).
  rewrite Hw. cbn [snd trace init_world app].
  unfold app.max_retries, app.retry_delay in *.
  repeat split; [assumption|lia..].
Qed.

(** Every request to src/app.py leaves by one of six exits. *)
Lemma app_serve_cases env files :
  (exists e, video_read env = inl e
     /\ app.serve env files
        = (Failure 500 (str e),
           mkWorld (<[temp_name env := ""]> files) 0 [EvIngest]))
  \/ (exists c e, video_read env = inr c /\ files_upload env = inl e
        /\ app.serve env files
           = (Failure 500 (str (HTTPException 400 (str e))),
              mkWorld (delete (temp_name env) (stored env c files)) 0
                      [EvIngest; EvUpload; EvUnlink (temp_name env)]))
  \/ (exists c file, video_read env = inr c /\ files_upload env = inr file
        /\ ready env file = false
        /\ app.serve env files
           = (Failure 500
                (str (HTTPException 400
                   (str (HTTPException 400
                           "File processing timeout. Please try again.")))),
              mkWorld (delete (temp_name env) (stored env c files))
                      (poll_gets env file)
                      ([EvIngest; EvUpload] ++ poll_trace env file
                       ++ [EvUnlink (temp_name env)])))
  \/ (exists c file e, video_read env = inr c /\ files_upload env = inr file
        /\ ready env file = true /\ generate_content env = inl e
        /\ app.serve env files
           = (Failure 500
                (str (HTTPException 400
                   (str (HTTPException 400
                           ("Error generating content: " +:+ str e))))),
              mkWorld (delete (temp_name env) (stored env c files))
                      (poll_gets env file)
                      ([EvIngest; EvUpload] ++ poll_trace env file
                       ++ [EvGenerate; EvUnlink (temp_name env)])))
  \/ (exists c file text e, video_read env = inr c
        /\ files_upload env = inr file /\ ready env file = true
        /\ generate_content env = inr text /\ agent_run env = inl e
        /\ app.serve env files
           = (Failure 500 (str (FileNotFoundError (temp_name env))),
              mkWorld (delete (temp_name env) (stored env c files))
                      (poll_gets env file)
                      ([EvIngest; EvUpload] ++ poll_trace env file
                       ++ [EvGenerate; EvUnlink (temp_name env); EvAgentRun])))
  \/ (exists c file text outcome, video_read env = inr c
        /\ files_upload env = inr file /\ ready env file = true
        /\ generate_content env = inr text /\ agent_run env = inr outcome
        /\ app.serve env files
           = (Success (Description text outcome),
              mkWorld (delete (temp_name env) (stored env c files))
                      (poll_gets env file)
                      ([EvIngest; EvUpload] ++ poll_trace env file
                       ++ [EvGenerate; EvUnlink (temp_name env); EvAgentRun]))).
Proof.
  destruct (video_read env) as [e|c] eqn:Hread.
  { left. exists e. split; [reflexivity|].
    exact (app_read_fails env files e Hread). }
  right.
  destruct (files_upload env) as [e|file] eqn:Hup.
  { left. exists c, e. split; [reflexivity|]. split; [reflexivity|].
    exact (app_upload_fails env files c e Hread Hup). }
  right.
  destruct (ready env file) eqn:Hready.
  2:{ left. exists c, file.
      split; [reflexivity|]. split; [reflexivity|]. split; [assumption|].
      exact (app_not_ready env files c file Hread Hup Hready). }
  right.
  destruct (generate_content env) as [e|text] eqn:Hgen.
  { left. exists c, file, e.
    split; [reflexivity|]. split; [reflexivity|]. split; [assumption|].
    split; [reflexivity|].
    exact (app_generation_fails env files c file e Hread Hup Hready Hgen). }
  right.
  destruct (agent_run env) as [e|outcome] eqn:Hrun.
  - left. exists c, file, text, e.
    split; [reflexivity|]. split; [reflexivity|]. split; [assumption|].
    split; [reflexivity|]. split; [reflexivity|].
    exact (app_agent_fails env files c file text e Hread Hup Hready Hgen Hrun).
  - right. exists c, file, text, outcome.
    split; [reflexivity|]. split; [reflexivity|]. split; [assumption|].
    split; [reflexivity|]. split; [reflexivity|].
    exact (app_success env files c file text outcome
             Hread Hup Hready Hgen Hrun).
Qed.

(** Every request to src/main.py leaves by one of four exits. *)
Lemma main_serve_cases env files :
  (exists e, video_read env = inl e
     /\ main.serve env files
        = (Failure 500 (str e),
           mkWorld (<[temp_name env := ""]> files) 0 [EvIngest]))
  \/ (exists c e, video_read env = inr c /\ generate_content env = inl e
        /\ main.serve env files
           = (Failure 500 (str e),
              mkWorld (stored env c files) 0 [EvIngest; EvGenerate]))
  \/ (exists c text e, video_read env = inr c
        /\ generate_content env = inr text /\ agent_run env = inl e
        /\ main.serve env files
           = (Failure 500 (str e),
              mkWorld (delete (temp_name env) (stored env c files)) 0
                      [EvIngest; EvGenerate; EvUnlink (temp_name env);
                       EvAgentRun]))
  \/ (exists c text outcome, video_read env = inr c
        /\ generate_content env = inr text /\ agent_run env = inr outcome
        /\ main.serve env files
           = (Success (TaskResponse text "success"),
              mkWorld (delete (temp_name env) (stored env c files)) 0
                      [EvIngest; EvGenerate; EvUnlink (temp_name env);
                       EvAgentRun])).
Proof.
  destruct (video_read env) as [e|c] eqn:Hread.
  { left. exists e. split; [reflexivity|].
    exact (main_read_fails env files e Hread). }
  right.
  destruct (generate_content env) as [e|text] eqn:Hgen.
  { left. exists c, e. split; [reflexivity|]. split; [reflexivity|].
    exact (main_generation_fails env files c e Hread Hgen). }
  right.
  destruct (agent_run env) as [e|outcome] eqn:Hrun.
  - left. exists c, text, e.
    split; [reflexivity|]. split; [reflexivity|]. split; [reflexivity|].
    exact (main_agent_fails env files c text e Hread Hgen Hrun).
  - right. exists c, text, outcome.
    split; [reflexivity|]. split; [reflexivity|]. split; [reflexivity|].
    exact (main_success env files c text outcome Hread Hgen Hrun).
Qed.

Lemma not_in_poll_trace env file e :
  poll_event e = false -> ~ In e (poll_trace env file).
Proof.
  intros He Hin.
  destruct (poll_trace_shape env file) as [Hev _].
  rewrite List.Forall_forall in Hev. rewrite (Hev e Hin) in He. discriminate.
Qed.

Lemma stages_poll_events tr :
  Forall (fun e => poll_event e = true) tr -> stages tr = repeat Poll (length tr).
Proof.
  induction 1 as [|e tr He _ IH]; [reflexivity|].
  unfold stages in *.
  destruct e; try discriminate; simpl; f_equal; exact IH.
Qed.

Lemma stages_app tr1 tr2 : stages (tr1 ++ tr2) = (stages tr1 ++ stages tr2)%list.
Proof. unfold stages. apply omap_app. Qed.


(** X6.  After a request to src/main.py the temporary file is gone
    exactly when the upload body was read and the generation call
    returned; otherwise the file stays on disk. *)
Theorem main_temp_file_gone_iff_generated env files :
  fs (snd (main.serve env files)) !! temp_name env = None
  <-> exists c text, video_read env = inr c /\ generate_content env = inr text.
Proof.
  split.
  - intros Hgone.
    destruct (main_serve_cases env files)
      as [(e & Hread & Hs)|[(c & e & Hread & Hgen & Hs)
         |[(c & text & e & Hread & Hgen & Hrun & Hs)
          |(c & text & outcome & Hread & Hgen & Hrun & Hs)]]];
      rewrite Hs in Hgone; cbn [snd fs] in Hgone.
    + rewrite lookup_insert_eq in Hgone. discriminate.
    + unfold stored in Hgone. rewrite lookup_insert_eq in Hgone. discriminate.
    + exists c, text. split; assumption.
    + exists c, text. split; assumption.
  - intros (c & text & Hread & Hgen).
    now apply (main_cleans_up_after_generation env files c text).
Qed.

(** X7.  The [process_video] handler of src/app.py, once it runs, that is
    for a request that carries the upload field, never answers with a 4xx
    status: its answer is 200 or 500, although it raises
    [HTTPException(400)] in three places.  Requests the framework turns
    down before the handler runs are outside this statement. *)
Theorem app_handler_never_answers_4xx env files :
  (status_code_of (fst (app.serve env files)) = 200
   \/ status_code_of (fst (app.serve env files)) = 500)
  /\ client_error (status_code_of (fst (app.serve env files))) = false.
Proof.
  destruct (fst (app.serve env files)) as [body|code detail] eqn:Hresp.
  - split; [left|]; reflexivity.
  - rewrite (app_failures_are_500 env files code detail Hresp).
    split; [right|]; reflexivity.
Qed.

(** X8.  A request to src/app.py succeeds exactly when the body is read,
    the upload succeeds, the poller reports ready, and the generation and
    the automation run return; the response then carries the generated
    text and the automation outcome unchanged. *)
Theorem app_succeeds_iff env files body :
  fst (app.serve env files) = Success body
  <-> exists c file text outcome,
        video_read env = inr c
        /\ files_upload env = inr file
        /\ ready env file = true
        /\ generate_content env = inr text
        /\ agent_run env = inr outcome
        /\ body = Description text outcome.
Proof.
  split.
  - intros Hok.
    destruct (app_serve_cases env files)
      as [(e & Hread & Hs)|[(c & e & Hread & Hup & Hs)
         |[(c & file & Hread & Hup & Hready & Hs)
          |[(c & file & e & Hread & Hup & Hready & Hgen & Hs)
           |[(c & file & text & e & Hread & Hup & Hready & Hgen & Hrun & Hs)
            |(c & file & text & outcome & Hread & Hup & Hready & Hgen
              & Hrun & Hs)]]]]];
      rewrite Hs in Hok; cbn [fst] in Hok; try discriminate.
    injection Hok as <-.
    exists c, file, text, outcome. repeat split; assumption.
  - intros (c & file & text & outcome & Hread & Hup & Hready & Hgen & Hrun & ->).
    rewrite (app_success env files c file text outcome
               Hread Hup Hready Hgen Hrun).
    reflexivity.
Qed.

(** X9.  A request to src/main.py succeeds exactly when the body is read
    and the generation and the automation run return; the response then
    carries the generated text and the fixed status "success", and nothing
    of what the automation run returned. *)
Theorem main_succeeds_iff env files body :
  fst (main.serve env files) = Success body
  <-> exists c text outcome,
        video_read env = inr c
        /\ generate_content env = inr text
        /\ agent_run env = inr outcome
        /\ body = TaskResponse text "success".
Proof.
  split.
  - intros Hok.
    destruct (main_serve_cases env files)
      as [(e & Hread & Hs)|[(c & e & Hread & Hgen & Hs)
         |[(c & text & e & Hread & Hgen & Hrun & Hs)
          |(c & text & outcome & Hread & Hgen & Hrun & Hs)]]];
      rewrite Hs in Hok; cbn [fst] in Hok; try discriminate.
    injection Hok as <-.
    exists c, text, outcome. repeat split; assumption.
  - intros (c & text & outcome & Hread & Hgen & Hrun & ->).
    rewrite (main_success env files c text outcome Hread Hgen Hrun).
    reflexivity.
Qed.



Lemma poll_gets_bound env file : poll_gets env file <= 121.
Proof.
  unfold poll_gets.
  destruct (wait_run_shape env file (init_world ∅))
    as (b & n & tr & Hw & _ & Hn & _).
  rewrite Hw. cbn [snd gets init_world]. unfold app.max_retries in Hn. lia.
Qed.

(** X11.  In src/app.py generation is requested only after the body was
    read, the upload succeeded and the poller reported ready.  In both
    variants the automation agent is run only directly after the temporary
    file was deleted, which directly follows a generation that returned;
    what the request does after the agent run belongs to no stage (no
    upload, status lookup, generation or further agent run), it can only
    be cleanup. *)
Theorem stage_order env files :
  (In EvGenerate (trace (snd (app.serve env files))) ->
   exists c file,
     video_read env = inr c /\ files_upload env = inr file
     /\ ready env file = true)
  /\ (In EvAgentRun (trace (snd (app.serve env files))) ->
      exists pre post text,
        generate_content env = inr text
        /\ trace (snd (app.serve env files))
           = (pre ++ [EvGenerate; EvUnlink (temp_name env); EvAgentRun]
              ++ post)%list
        /\ stages post = [])
  /\ (In EvAgentRun (trace (snd (main.serve env files))) ->
      exists pre post text,
        generate_content env = inr text
        /\ trace (snd (main.serve env files))
           = (pre ++ [EvGenerate; EvUnlink (temp_name env); EvAgentRun]
              ++ post)%list
        /\ stages post = []).
Proof.
  split; [|split].
  - intros Hin.
    destruct (app_serve_cases env files)
      as [(e & Hread & Hs)|[(c & e & Hread & Hup & Hs)
         |[(c & file & Hread & Hup & Hready & Hs)
          |[(c & file & e & Hread & Hup & Hready & Hgen & Hs)
           |[(c & file & text & e & Hread & Hup & Hready & Hgen & Hrun & Hs)
            |(c & file & text & outcome & Hread & Hup & Hready & Hgen
              & Hrun & Hs)]]]]];
      rewrite Hs in Hin; cbn [snd trace] in Hin;
      try (exists c, file; repeat split; assumption);
      exfalso; rewrite ?in_app_iff in Hin; simpl in Hin;
      intuition (try discriminate);
      match goal with
      | H : In _ (poll_trace _ _) |- _ =>
          apply not_in_poll_trace in H; [exact H|reflexivity]
      end.
  - intros Hin.
    destruct (app_serve_cases env files)
      as [(e & Hread & Hs)|[(c & e & Hread & Hup & Hs)
         |[(c & file & Hread & Hup & Hready & Hs)
          |[(c & file & e & Hread & Hup & Hready & Hgen & Hs)
           |[(c & file & text & e & Hread & Hup & Hready & Hgen & Hrun & Hs)
            |(c & file & text & outcome & Hread & Hup & Hready & Hgen
              & Hrun & Hs)]]]]];
      rewrite Hs in Hin |- *; cbn [snd trace] in Hin |- *;
      try (exists ([EvIngest; EvUpload] ++ poll_trace env file)%list, [], text;
           split; [assumption|]; split; [|reflexivity];
           rewrite <- app_assoc; reflexivity);
      exfalso; rewrite ?in_app_iff in Hin; simpl in Hin;
      intuition (try discriminate);
      match goal with
      | H : In _ (poll_trace _ _) |- _ =>
          apply not_in_poll_trace in H; [exact H|reflexivity]
      end.
  - intros Hin.
    destruct (main_serve_cases env files)
      as [(e & Hread & Hs)|[(c & e & Hread & Hgen & Hs)
         |[(c & text & e & Hread & Hgen & Hrun & Hs)
          |(c & text & outcome & Hread & Hgen & Hrun & Hs)]]];
      rewrite Hs in Hin |- *; cbn [snd trace] in Hin |- *;
      try (exists [EvIngest], [], text;
           split; [assumption|split; reflexivity]);
      exfalso; simpl in Hin; intuition discriminate.
Qed.

Lemma stage_order_witness :
  let env := mock [status "PROCESSING"; status "ACTIVE"] (status "ACTIVE") in
  (exists c file,
     video_read env = inr c /\ files_upload env = inr file
     /\ ready env file = true)
  /\ exists pre post text,
       generate_content env = inr text
       /\ trace (snd (main.serve env ∅))
          = (pre ++ [EvGenerate; EvUnlink (temp_name env); EvAgentRun]
             ++ post)%list
       /\ stages post = [].
Proof.
  intros env.
  destruct (stage_order env ∅) as (Hgen & _ & Hmain).
  split.
  - apply Hgen. vm_compute. tauto.
  - apply Hmain. vm_compute. tauto.
Defined.

(** X12.  The stages of a request follow one fixed line and stop where
    the request fails: in src/app.py a prefix of ingest, upload, polls,
    generate, delegate; in src/main.py a prefix of ingest, generate,
    delegate, with no status lookup and no sleep at all. *)
Theorem stages_are_linear env files :
  (exists n rest,
     ([Ingest; Upload] ++ repeat Poll n ++ [Generate; Delegate])%list
     = (stages (trace (snd (app.serve env files))) ++ rest)%list)
  /\ (exists rest,
        [Ingest; Generate; Delegate]
        = (stages (trace (snd (main.serve env files))) ++ rest)%list)
  /\ lookups (trace (snd (main.serve env files))) = 0
  /\ sleeps (trace (snd (main.serve env files))) = 0.
Proof.
  split; [|split].
  - destruct (app_serve_cases env files)
      as [(e & _ & Hs)|[(c & e & _ & _ & Hs)
         |[(c & file & _ & _ & _ & Hs)
          |[(c & file & e & _ & _ & _ & _ & Hs)
           |[(c & file & text & e & _ & _ & _ & _ & _ & Hs)
            |(c & file & text & outcome & _ & _ & _ & _ & _ & Hs)]]]]];
      rewrite Hs; cbn [snd trace].
    + exists 0, [Upload; Generate; Delegate]. reflexivity.
    + exists 0, [Generate; Delegate]. reflexivity.
    + exists (length (poll_trace env file)), [Generate; Delegate].
      rewrite !stages_app.
      rewrite (stages_poll_events (poll_trace env file))
        by apply poll_trace_shape.
      change (stages [EvIngest; EvUpload]) with [Ingest; Upload].
      change (stages [EvUnlink (temp_name env)]) with (@nil Stage).
      rewrite app_nil_r, <- app_assoc. reflexivity.
    + exists (length (poll_trace env file)), [Delegate].
      rewrite !stages_app.
      rewrite (stages_poll_events (poll_trace env file))
        by apply poll_trace_shape.
      change (stages [EvIngest; EvUpload]) with [Ingest; Upload].
      change (stages [EvGenerate; EvUnlink (temp_name env)]) with [Generate].
      rewrite <- !app_assoc. reflexivity.
    + exists (length (poll_trace env file)), [].
      rewrite !stages_app.
      rewrite (stages_poll_events (poll_trace env file))
        by apply poll_trace_shape.
      rewrite app_nil_r. reflexivity.
    + exists (length (poll_trace env file)), [].
      rewrite !stages_app.
      rewrite (stages_poll_events (poll_trace env file))
        by apply poll_trace_shape.
      rewrite app_nil_r. reflexivity.
  - destruct (main_serve_cases env files)
      as [(e & _ & Hs)|[(c & e & _ & _ & Hs)
         |[(c & text & e & _ & _ & _ & Hs)
          |(c & text & outcome & _ & _ & _ & Hs)]]];
      rewrite Hs; cbn [snd trace].
    + exists [Generate; Delegate]. reflexivity.
    + exists [Delegate]. reflexivity.
    + exists []. reflexivity.
    + exists []. reflexivity.
  - destruct (main_serve_cases env files)
      as [(e & _ & Hs)|[(c & e & _ & _ & Hs)
         |[(c & text & e & _ & _ & _ & Hs)
          |(c & text & outcome & _ & _ & _ & Hs)]]];
      rewrite Hs; split; reflexivity.
Qed.

(** X13.  A request to src/app.py issues at most 121 status lookups and
    sleeps at most 120 times, 600 seconds in all, whatever the remote
    service answers. *)
Theorem app_request_budget env files :
  gets (snd (app.serve env files)) <= 121
  /\ lookups (trace (snd (app.serve env files))) <= 121
  /\ sleeps (trace (snd (app.serve env files))) <= 120
  /\ slept (trace (snd (app.serve env files))) <= 600.
Proof.
  destruct (app_serve_cases env files)
    as [(e & _ & Hs)|[(c & e & _ & _ & Hs)
       |[(c & file & _ & _ & _ & Hs)
        |[(c & file & e & _ & _ & _ & _ & Hs)
         |[(c & file & text & e & _ & _ & _ & _ & _ & Hs)
          |(c & file & text & outcome & _ & _ & _ & _ & _ & Hs)]]]]];
    rewrite Hs; cbn [snd trace gets];
    try (unfold lookups, sleeps; simpl; repeat split; lia);
    pose proof (poll_gets_bound env file);
    destruct (poll_trace_shape env file) as (_ & Hl & Hsl & Hst);
    rewrite !lookups_app, !sleeps_app, !slept_app;
    unfold lookups at 1 3, sleeps at 1 3; simpl; repeat split; lia.
Qed.
